(** * WebGPU MatMul dispatch planner and the NMS overlap test

    A shallow embedding of
    - [onnxruntime/core/providers/webgpu/math/matmul.cc]
      ([CalcResult], [MatMulNativeProgram::GenerateShaderCode],
      [MatMul::PrintGPUTensor], [MatMul::ComputeInternal]) and
    - [onnxruntime/core/providers/cpu/object_detection/non_max_suppression_helper.h]
      ([MaxMin], [SuppressByIOU]).

    Integers of the source are [Z] with the conversions written out,
    [float] is IEEE-754 binary32 through the Standard Library's [SpecFloat],
    tensor shapes are lists of [int64_t] dimensions, and the calls that
    [ComputeInternal] makes on its [ComputeContext] are threaded through an
    explicit world carrying the output tensor and the sequence of calls. *)

From Stdlib Require Import ZArith List String Ascii Bool Lia.
From Stdlib Require Import SpecFloat DecimalString.
Import ListNotations.
Open Scope Z_scope.

(** ** Machine integers *)

(** [static_cast<uint32_t>(x)]: reduction modulo 2^32. *)
Definition to_uint32 (x : Z) : Z := x mod 2 ^ 32.

(** [static_cast<int32_t>(x)]: two's complement wrap-around into
    [-2^31, 2^31). *)
Definition to_int32 (x : Z) : Z := (x + 2 ^ 31) mod 2 ^ 32 - 2 ^ 31.

(** [std::to_string] and [operator<<] on an integer: decimal digits. *)
Definition to_string (x : Z) : string := NilZero.string_of_int (Z.to_int x).

(** [std::to_string(bool)] goes through the promotion to [int]. *)
Definition bool_to_string (b : bool) : string := to_string (if b then 1 else 0).

(** ** binary32 arithmetic *)

Module F32.

Definition prec : Z := 24.
Definition emax : Z := 128.

Definition float : Type := spec_float.

(** [static_cast<float>(z)], round to nearest, ties to even. *)
Definition of_Z (z : Z) : float := binary_normalize prec emax z 0 false.

Definition zero : float := S754_zero false.

Definition add : float -> float -> float := SFadd prec emax.
Definition sub : float -> float -> float := SFsub prec emax.
Definition mul : float -> float -> float := SFmul prec emax.
Definition div : float -> float -> float := SFdiv prec emax.

Definition ltb : float -> float -> bool := SFltb.
Definition leb : float -> float -> bool := SFleb.

(** The integer [m * 2^e] rounded towards plus infinity ([e < 0]). *)
Definition ceil_scaled (m e : Z) : Z := - ((- m) / 2 ^ (- e)).

(** [ceil]: the least integral value not below [x]; zeros, infinities,
    NaN and values with a non-negative exponent are integral already. *)
Definition ceil (x : float) : float :=
  match x with
  | S754_finite s m e =>
      if 0 <=? e then x
      else match ceil_scaled (cond_Zopp s (Zpos m)) e with
           | Z0 => S754_zero s
           | q => binary_normalize prec emax q 0 s
           end
  | _ => x
  end.

(** The value of [x] with its fractional part discarded. *)
Definition trunc (x : float) : option Z :=
  match x with
  | S754_zero _ => Some 0
  | S754_finite s m e =>
      Some (if 0 <=? e then cond_Zopp s (Zpos m) * 2 ^ e
            else Z.quot (cond_Zopp s (Zpos m)) (2 ^ (- e)))
  | _ => None
  end.

(** [(uint32_t)x]: truncation towards zero.  The conversion is undefined
    in C++ when the truncated value is not a [uint32_t] (also for
    infinities and NaN); that is [None] here. *)
Definition to_uint32 (x : float) : option Z :=
  match trunc x with
  | Some t => if (0 <=? t) && (t <? 2 ^ 32) then Some t else None
  | None => None
  end.

End F32.

(** ** Status *)

Inductive StatusCode : Type :=
| ShapeMismatch
| BroadcastIncompatible
| InvalidArgument
| GenericFailure.

Inductive Status : Type :=
| OK
| Error (code : StatusCode).

Definition IsOK (s : Status) : bool :=
  match s with OK => true | Error _ => false end.

(** ** TensorShape *)

(** A [TensorShape] is its vector of [int64_t] dimensions. *)
Definition TensorShape : Type := list Z.

Definition NumDimensions (s : TensorShape) : nat := List.length s.

(** [TensorShape::Size]: the product of all dimensions (1 for rank 0). *)
Definition Size (s : TensorShape) : Z := fold_right Z.mul 1 s.

(** [TensorShape::SizeToDimension(n)]: the product of the first [n]
    dimensions. *)
Definition SizeToDimension (s : TensorShape) (n : nat) : Z := Size (firstn n s).

(** [TensorShape::Slice(start, end)]: dimensions [start .. end-1]. *)
Definition Slice (s : TensorShape) (dimstart dimend : nat) : TensorShape :=
  firstn (dimend - dimstart) (skipn dimstart s).

(** [shape[i]]. *)
Definition dim (s : TensorShape) (i : nat) : Z := nth i s 0.

(** ** MatMulComputeHelper *)

Record MatMulComputeHelper : Type := {
  M : Z;
  N : Z;
  K : Z;
  OutputShape : TensorShape
}.

(** Broadcast of two batch shapes given innermost dimension first: each
    aligned pair is equal or one of the two is 1, the result is the one that
    is not 1; the shorter list counts as padded with 1. *)
Fixpoint broadcast_rev (a b : list Z) : option (list Z) :=
  match a, b with
  | [], _ => Some b
  | _, [] => Some a
  | x :: a', y :: b' =>
      match broadcast_rev a' b' with
      | None => None
      | Some r =>
          if x =? y then Some (x :: r)
          else if x =? 1 then Some (y :: r)
          else if y =? 1 then Some (x :: r)
          else None
      end
  end.

Definition broadcast (a b : list Z) : option (list Z) :=
  option_map (@rev Z) (broadcast_rev (rev a) (rev b)).

(** Modelled from the spec: [MatMulComputeHelper::Compute] of
    [core/providers/cpu/math/matmul_helper.h], which is not part of the
    sources at hand.  Both shapes have rank at least 2; [K] is the last
    dimension of A and must be the second-to-last of B; the batch dimensions
    broadcast, right-aligned; the output shape is the broadcast batch shape
    followed by [M; N].  The result is the filled helper or the error
    status. *)
Definition Compute (a b : TensorShape) : MatMulComputeHelper + StatusCode :=
  if (NumDimensions a <? 2)%nat || (NumDimensions b <? 2)%nat
  then inr InvalidArgument
  else
    let ra := NumDimensions a in
    let rb := NumDimensions b in
    let m := dim a (ra - 2) in
    let k := dim a (ra - 1) in
    let n := dim b (rb - 1) in
    if negb (dim b (rb - 2) =? k) then inr ShapeMismatch
    else match broadcast (Slice a 0 (ra - 2)) (Slice b 0 (rb - 2)) with
         | None => inr BroadcastIncompatible
         | Some outer =>
             inl {| M := m; N := n; K := k; OutputShape := outer ++ [m; n] |}
         end.

(** Modelled from the spec: [GetMaxComponents] of the WebGPU shader
    utilities, which is not part of the sources at hand: 4 when the size is
    a multiple of 4, else 2 when it is even, else 1.  The remainder is the
    one of C++ (truncated). *)
Definition GetMaxComponents (size : Z) : Z :=
  if Z.rem size 4 =? 0 then 4
  else if Z.rem size 2 =? 0 then 2
  else 1.

(** ** Programs *)

Inductive ProgramTensorMetadataDependency : Type :=
| DepNone
| DepRank
| DepTypeAndRank.

(** The tensors a program is given: inputs of the kernel by index, or its
    output. *)
Inductive TensorRef : Type :=
| InputTensor (index : nat)
| OutputTensor.

(** A [ProgramInput] or [ProgramOutput]: tensor, dependency, the shape the
    shader is to see when one is given, and the component count. *)
Record ProgramTensor : Type := {
  tensor : TensorRef;
  dependency : ProgramTensorMetadataDependency;
  override_shape : option TensorShape;
  component : Z
}.

(** The two program classes with their constructor arguments. *)
Inductive ProgramClass : Type :=
| MatMulNativeProgram (output_size_ output_number_ : Z) (has_bias_ : bool)
| MatMulProgram (has_bias_ is_vec4_ : bool) (elements_per_thread_ : list Z).

(** A program after the builder calls of [ComputeInternal].  The groups and
    the workgroup size are kept as the argument lists of
    [SetDispatchGroupSize] and [SetWorkgroupSize]; a group count is [None]
    where the conversion from [float] that computes it is undefined. *)
Record Program : Type := {
  class : ProgramClass;
  cache_hint : list string;
  inputs : list ProgramTensor;
  outputs : list ProgramTensor;
  dispatch_group_size : list (option Z);
  workgroup_size : list Z;
  indices : list TensorShape;
  uniform_variables : list Z
}.

Inductive Strategy : Type := Native | Packed.

Definition strategy_of (p : Program) : Strategy :=
  match class p with
  | MatMulNativeProgram _ _ _ => Native
  | MatMulProgram _ _ _ => Packed
  end.

(** ** The compute context and the world *)

(** What [ComputeInternal] reads from its context and from the kernel info:
    the shapes of the input tensors, the execution of a submitted program
    (its status, and the shape the output tensor has when it returns), and
    the data transfer manager's [CopyTensor] from the device.  Both are
    collaborators outside the sources at hand. *)
Record ComputeContext : Type := {
  input_shapes : list TensorShape;
  run_program : Program -> TensorShape -> Status * TensorShape;
  copy_tensor : TensorShape -> Status
}.

Definition InputCount (context : ComputeContext) : nat :=
  List.length (input_shapes context).

Definition Input (context : ComputeContext) (i : nat) : TensorShape :=
  nth i (input_shapes context) [].

(** The calls made on the collaborators, in order, and the loop of
    [PrintGPUTensor] that logs the values of the tensor: [EvLogValues]
    carries the number of values it logs, or [None] where its [int] counter
    overflows, from where on the behaviour of the call is undefined. *)
Inductive Event : Type :=
| EvOutput (index : nat) (shape : TensorShape)
| EvRunProgram (program : Program)
| EvReshape (shape : TensorShape)
| EvCreateCPUTensor (shape : TensorShape)
| EvCopyTensor (shape : TensorShape)
| EvLogValues (count : option Z).

Record World : Type := {
  output_tensor : option TensorShape;
  events : list Event
}.

Definition initial : World := {| output_tensor := None; events := [] |}.

Definition emit (e : Event) (w : World) : World :=
  {| output_tensor := output_tensor w; events := events w ++ [e] |}.

(** A function of the source that returns a [Status]. *)
Definition Exec : Type := World -> Status * World.

Definition return_if_error (m : Exec) (k : Exec) : Exec :=
  fun w => let (st, w1) := m w in
           if IsOK st then k w1 else (st, w1).

Notation "'ORT_RETURN_IF_ERROR' m ';;' k" := (return_if_error m k)
  (at level 10, m at level 9, k at level 200).

(** [context.Output(index, shape)]: the output tensor is allocated with the
    given shape. *)
Definition Output (index : nat) (shape : TensorShape) (w : World) : World :=
  emit (EvOutput index shape)
       {| output_tensor := Some shape; events := events w |}.

(** [output_tensor->Reshape(shape)]. *)
Definition Reshape (shape : TensorShape) (w : World) : World :=
  emit (EvReshape shape)
       {| output_tensor := Some shape; events := events w |}.

Definition tensor_shape (w : World) : TensorShape :=
  match output_tensor w with Some s => s | None => [] end.

(** [context.RunProgram(program)]. *)
Definition RunProgram (context : ComputeContext) (program : Program) : Exec :=
  fun w =>
    let (st, shape) := run_program context program (tensor_shape w) in
    (st, emit (EvRunProgram program)
              {| output_tensor := Some shape; events := events w |}).

(** [Info().GetDataTransferManager().CopyTensor(tensor, temp_tensor)]. *)
Definition CopyTensor (context : ComputeContext) (shape : TensorShape) : Exec :=
  fun w => (copy_tensor context shape, emit (EvCopyTensor shape) w).

(** [for (int i = 0; i < temp_tensor.Shape().Size(); i++)] with one value
    logged per step: the loop runs [Size()] times (not at all when that is
    not positive) as long as the counter stays an [int], that is for fewer
    than 2^31 elements; with 2^31 elements or more the increment overflows,
    which is undefined ([None]). *)
Definition logged_values (shape : TensorShape) : option Z :=
  if Size shape <? 2 ^ 31 then Some (Z.max 0 (Size shape)) else None.

(** [MatMul::PrintGPUTensor]: a temporary tensor on the CPU, the copy of the
    device tensor into it, returning its error if it fails, and the loop
    that logs the values.  The other log statements of the source are not
    modelled.  Where the loop is undefined the status returned here means
    nothing; see [returned]. *)
Definition PrintGPUTensor (context : ComputeContext) : Exec :=
  fun w =>
    let shape := tensor_shape w in
    (ORT_RETURN_IF_ERROR (CopyTensor context shape) ;;
     fun w' => (OK, emit (EvLogValues (logged_values shape)) w'))
      (emit (EvCreateCPUTensor shape) w).

(** ** MatMul::ComputeInternal *)

(** [absl::StrJoin(v, sep)]. *)
Definition StrJoin (v : list Z) (sep : string) : string :=
  String.concat sep (map to_string v).

(** The local variables of the branch for [MatMulNativeProgram]. *)
Record NativeFrame : Type := {
  nf_components : Z;
  nf_a_components : Z;
  nf_output_number : Z;
  nf_output_size : Z;
  nf_output_rank : nat;
  nf_outer_dims : TensorShape;
  nf_batch_size : Z;
  nf_output_shape_shader : TensorShape;
  nf_program : Program
}.

(** The local variables of the code for [MatMulProgram]; [pf_rewritten]
    records whether the branch for the batched vector times matrix case was
    taken. *)
Record PackedFrame : Type := {
  pf_batchA : Z;
  pf_batchB : Z;
  pf_m_value : Z;
  pf_rewritten : bool;
  pf_a_shape : TensorShape;
  pf_b_shape : TensorShape;
  pf_output_shape : TensorShape;
  pf_outer_dims_a : TensorShape;
  pf_outer_dims_b : TensorShape;
  pf_outer_dims : TensorShape;
  pf_batch_size : Z;
  pf_dim_a_outer : Z;
  pf_dim_inner : Z;
  pf_dim_b_outer : Z;
  pf_is_vec4 : bool;
  pf_elements_per_thread : list Z;
  pf_dispatch_x : option Z;
  pf_dispatch_y : option Z;
  pf_dispatch_z : option Z;
  pf_components : Z;
  pf_a_shape_temp : TensorShape;
  pf_b_shape_temp : TensorShape;
  pf_output_shape_temp : TensorShape;
  pf_program : Program
}.

(** [(uint32_t)ceil(static_cast<float>(extent) / d1 / d2)]. *)
Definition dispatch_count (extent d1 d2 : Z) : option Z :=
  F32.to_uint32
    (F32.ceil (F32.div (F32.div (F32.of_Z extent) (F32.of_Z d1)) (F32.of_Z d2))).

(** [(uint32_t)ceil(static_cast<float>(output_size) / 64)]. *)
Definition dispatch_count_native (output_size : Z) : option Z :=
  F32.to_uint32 (F32.ceil (F32.div (F32.of_Z output_size) (F32.of_Z 64))).

(** [rank > 2 ? shape.Slice(0, rank - 2) : TensorShape({})]. *)
Definition outer_dims_of (shape : TensorShape) : TensorShape :=
  if (2 <? NumDimensions shape)%nat
  then Slice shape 0 (NumDimensions shape - 2)
  else [].

Section ComputeInternal.

(** Constants and a helper of [matmul.h] and [matmul_packed.h], which are
    not part of the sources at hand. *)
Variable MATMUL_PACKED_WORKGROUP_SIZE_X : Z.
Variable MATMUL_PACKED_WORKGROUP_SIZE_Y : Z.
Variable MATMUL_PACKED_WORKGROUP_SIZE_Z : Z.
Variable BuildTempShapeVector : TensorShape -> Z -> Z -> Z -> TensorShape.

Variable context : ComputeContext.

Definition has_bias : bool := (2 <? InputCount context)%nat.

Definition bias_input : list ProgramTensor :=
  if has_bias
  then [ {| tensor := InputTensor 2; dependency := DepRank;
            override_shape := None; component := 1 |} ]
  else [].

(** The branch [if (n < 8 && k < 8)] up to the program it builds. *)
Definition native_frame (helper : MatMulComputeHelper) (m n k : Z) : NativeFrame :=
  let components := GetMaxComponents n in
  let a_components := GetMaxComponents k in
  let output_number := GetMaxComponents m in
  let output_size :=
    to_uint32 (Z.quot (Z.quot (Size (OutputShape helper)) components)
                      output_number) in
  let output_rank := NumDimensions (OutputShape helper) in
  let outer_dims := outer_dims_of (OutputShape helper) in
  let batch_size := Size outer_dims in
  let output_shape_shader :=
    [batch_size; M helper; Z.quot (N helper) components] in
  {| nf_components := components;
     nf_a_components := a_components;
     nf_output_number := output_number;
     nf_output_size := output_size;
     nf_output_rank := output_rank;
     nf_outer_dims := outer_dims;
     nf_batch_size := batch_size;
     nf_output_shape_shader := output_shape_shader;
     nf_program :=
       {| class := MatMulNativeProgram output_size output_number has_bias;
          cache_hint := [to_string components; to_string a_components;
                         to_string output_number];
          inputs :=
            [ {| tensor := InputTensor 0; dependency := DepTypeAndRank;
                 override_shape := None; component := a_components |};
              {| tensor := InputTensor 1; dependency := DepTypeAndRank;
                 override_shape := None; component := components |} ]
            ++ bias_input;
          outputs :=
            [ {| tensor := OutputTensor; dependency := DepNone;
                 override_shape := Some output_shape_shader;
                 component := components |} ];
          dispatch_group_size := [dispatch_count_native output_size];
          workgroup_size := [];
          indices := [outer_dims];
          uniform_variables := [output_size; m; n; k] |} |}.

(** The code after the branch, up to the program it builds. *)
Definition packed_frame (helper : MatMulComputeHelper) : PackedFrame :=
  let a := Input context 0 in
  let b := Input context 1 in
  let batchA := SizeToDimension a (NumDimensions a - 2) in
  let batchB := SizeToDimension b (NumDimensions b - 2) in
  let m_value :=
    dim (OutputShape helper) (NumDimensions (OutputShape helper) - 2) in
  let rewritten :=
    negb (batchA =? 1) && (m_value =? 1) && (batchB =? 1) in
  let a_shape := if rewritten then [1; batchA; K helper] else a in
  let b_shape := if rewritten then [1; K helper; N helper] else b in
  let output_shape :=
    if rewritten then [1; batchA; N helper] else OutputShape helper in
  let outer_dims_a := outer_dims_of a_shape in
  let outer_dims_b := outer_dims_of b_shape in
  let outer_dims := outer_dims_of output_shape in
  let batch_size := Size outer_dims in
  let dim_a_outer := to_int32 (dim a_shape (NumDimensions a_shape - 2)) in
  let dim_inner := to_int32 (dim a_shape (NumDimensions a_shape - 1)) in
  let dim_b_outer := to_int32 (dim b_shape (NumDimensions b_shape - 1)) in
  let is_vec4 := (Z.rem dim_inner 4 =? 0) && (Z.rem dim_b_outer 4 =? 0) in
  let elements_per_thread :=
    if dim_a_outer <=? 8 then [4; 1; 1] else [4; 4; 1] in
  let dispatch_x :=
    dispatch_count dim_b_outer MATMUL_PACKED_WORKGROUP_SIZE_X
                   (nth 0 elements_per_thread 0) in
  let dispatch_y :=
    dispatch_count dim_a_outer MATMUL_PACKED_WORKGROUP_SIZE_Y
                   (nth 1 elements_per_thread 0) in
  let dispatch_z :=
    dispatch_count batch_size MATMUL_PACKED_WORKGROUP_SIZE_Z
                   (nth 2 elements_per_thread 0) in
  let components := if is_vec4 then 4 else 1 in
  let a_shape_temp :=
    BuildTempShapeVector outer_dims_a dim_a_outer dim_inner components in
  let b_shape_temp :=
    BuildTempShapeVector outer_dims_b dim_inner dim_b_outer components in
  let output_shape_temp :=
    [batch_size; dim_a_outer; Z.quot dim_b_outer components] in
  {| pf_batchA := batchA;
     pf_batchB := batchB;
     pf_m_value := m_value;
     pf_rewritten := rewritten;
     pf_a_shape := a_shape;
     pf_b_shape := b_shape;
     pf_output_shape := output_shape;
     pf_outer_dims_a := outer_dims_a;
     pf_outer_dims_b := outer_dims_b;
     pf_outer_dims := outer_dims;
     pf_batch_size := batch_size;
     pf_dim_a_outer := dim_a_outer;
     pf_dim_inner := dim_inner;
     pf_dim_b_outer := dim_b_outer;
     pf_is_vec4 := is_vec4;
     pf_elements_per_thread := elements_per_thread;
     pf_dispatch_x := dispatch_x;
     pf_dispatch_y := dispatch_y;
     pf_dispatch_z := dispatch_z;
     pf_components := components;
     pf_a_shape_temp := a_shape_temp;
     pf_b_shape_temp := b_shape_temp;
     pf_output_shape_temp := output_shape_temp;
     pf_program :=
       {| class := MatMulProgram has_bias is_vec4 elements_per_thread;
          cache_hint := [StrJoin elements_per_thread "-";
                         bool_to_string is_vec4];
          inputs :=
            [ {| tensor := InputTensor 0; dependency := DepTypeAndRank;
                 override_shape := Some a_shape_temp;
                 component := components |};
              {| tensor := InputTensor 1; dependency := DepTypeAndRank;
                 override_shape := Some b_shape_temp;
                 component := components |} ]
            ++ bias_input;
          outputs :=
            [ {| tensor := OutputTensor; dependency := DepRank;
                 override_shape := Some output_shape_temp;
                 component := components |} ];
          dispatch_group_size := [dispatch_x; dispatch_y; dispatch_z];
          workgroup_size := [MATMUL_PACKED_WORKGROUP_SIZE_X;
                             MATMUL_PACKED_WORKGROUP_SIZE_Y;
                             MATMUL_PACKED_WORKGROUP_SIZE_Z];
          indices := [outer_dims];
          uniform_variables := [dim_a_outer; dim_b_outer; dim_inner] |} |}.

(** The statements both paths end with (lines 192-197 and 316-321 of
    [matmul.cc], the same text twice): [RunProgram], the [Reshape] of the
    output tensor to the helper's output shape, [PrintGPUTensor] under
    [ORT_RETURN_IF_ERROR], and [return res]. *)
Definition run_and_print (helper : MatMulComputeHelper) (program : Program) : Exec :=
  fun w =>
    let (res, w1) := RunProgram context program w in
    let w2 := Reshape (OutputShape helper) w1 in
    (ORT_RETURN_IF_ERROR (PrintGPUTensor context) ;;
     fun w3 => (res, w3)) w2.

Definition ComputeInternal : Exec :=
  fun w =>
    let a := Input context 0 in
    let b := Input context 1 in
    match Compute a b with
    | inr code => (Error code, w)
    | inl helper =>
        let w0 := Output 0 (OutputShape helper) w in
        let m := to_uint32 (M helper) in
        let n := to_uint32 (N helper) in
        let k := to_uint32 (K helper) in
        if (n <? 8) && (k <? 8)
        then run_and_print helper (nf_program (native_frame helper m n k)) w0
        else run_and_print helper (pf_program (packed_frame helper)) w0
    end.

End ComputeInternal.

(** ** MatMulNativeProgram::GenerateShaderCode *)

Module Shader.

Local Open Scope string_scope.

(** The line feed of the string literals. *)
Definition nl : string := String (ascii_of_nat 10) EmptyString.

Inductive ShaderUsage : Type :=
| UseUniform
| UseIndicesTypeAlias
| UseValueTypeAlias
| UseElementTypeAlias.

(** A shader variable or indices helper as [GenerateShaderCode] uses it.
    The helper classes are not part of the sources at hand; their methods
    are the fields. *)
Record ShaderVariableHelper : Type := {
  NumComponents : Z;
  Rank : Z;
  OffsetToIndices : string -> string;
  IndicesSet : string -> Z -> Z -> string;
  IndicesToOffset : string -> string;
  SetByOffset : string -> string -> string
}.

Record ShaderHelper : Type := {
  AddInput : string -> list ShaderUsage -> ShaderVariableHelper;
  AddOutput : string -> list ShaderUsage -> ShaderVariableHelper;
  AddIndices : string -> ShaderVariableHelper;
  GuardAgainstOutOfBoundsWorkgroupSizes : string -> string;
  (** The free function of the packed MatMul sources. *)
  ConvertOutputBatchIndicesToInputBatchIndices :
    string -> ShaderVariableHelper -> Z -> Z -> string -> string
}.

(** What a call of [GenerateShaderCode] leaves in the shader helper: the
    variables it declared, in order, and the text of the main function
    body. *)
Record ShaderCode : Type := {
  declared : list string;
  MainFunctionBody : string
}.

(** [for (int i = 0; i < n; ++i) oss << body(i);] *)
Definition for_range (n : Z) (body : Z -> string) : string :=
  String.concat EmptyString (map (fun i => body (Z.of_nat i)) (seq 0 (Z.to_nat n))).

Definition CalcResult (components a_components output_number : Z) : string :=
  "var a_data: a_value_t;" ++ nl ++
  for_range a_components (fun i =>
    "let b_data" ++ to_string i ++ " = b[(b_offset + (k + " ++ to_string i
    ++ ") * uniforms.N + col) / " ++ to_string components ++ "];" ++ nl) ++
  for_range output_number (fun i =>
    "a_data = a[(a_offset + (row + " ++ to_string i
    ++ ") * uniforms.K + k) / " ++ to_string a_components ++ "];" ++ nl ++
    for_range a_components (fun j =>
      "values[" ++ to_string i ++ "] = fma(b_value_t(a_data"
      ++ (if (a_components =? 1)%Z then EmptyString else "[" ++ to_string j ++ "]")
      ++ "), b_data" ++ to_string j ++ ", values[" ++ to_string i ++ "]);"
      ++ nl)).

Definition a_usage : list ShaderUsage :=
  [UseUniform; UseIndicesTypeAlias; UseValueTypeAlias; UseElementTypeAlias].

Definition output_usage : list ShaderUsage :=
  [UseUniform; UseIndicesTypeAlias; UseValueTypeAlias].

(** The members of [MatMulNativeProgram] are its constructor arguments
    [output_size_], [output_number_] and [has_bias_]. *)
Definition GenerateShaderCode
    (output_size_ output_number_ : Z) (has_bias_ : bool)
    (shader : ShaderHelper) : ShaderCode :=
  let a := AddInput shader "a" a_usage in
  let b := AddInput shader "b" a_usage in
  let process_bias :=
    if has_bias_ then "value += output_value_t(bias[row +i]);" else EmptyString in
  let output := AddOutput shader "output" output_usage in
  let batch_dims := AddIndices shader "batch_dims" in
  let a_components := NumComponents a in
  let components := NumComponents b in
  let convert := ConvertOutputBatchIndicesToInputBatchIndices shader in
  {| declared :=
       ["a"; "b"] ++ (if has_bias_ then ["bias"] else [])
       ++ ["output"; "batch_dims"];
     MainFunctionBody :=
       (GuardAgainstOutOfBoundsWorkgroupSizes shader "uniforms.output_size"
        ++ "let col = (global_idx % (uniforms.N / " ++ to_string components
        ++ ")) * " ++ to_string components ++ ";" ++ nl
        ++ "var index1 = global_idx / (uniforms.N / " ++ to_string components
        ++ ");" ++ nl
        ++ "let stride1 = uniforms.M / " ++ to_string output_number_ ++ ";" ++ nl
        ++ "let row = (index1 % stride1) * " ++ to_string output_number_
        ++ ";" ++ nl
        ++ "let batch = index1 / stride1;" ++ nl)
       ++ (if negb (output_size_ =? 2)%Z
           then "let batch_indices = " ++ OffsetToIndices batch_dims "batch"
                ++ ";" ++ nl
           else EmptyString)
       ++ ("var a_indices: a_indices_t;" ++ nl
        ++ convert "a" a (Rank a - 2) (Rank batch_dims) "batch_indices"
        ++ IndicesSet a "a_indices" (Rank a - 2) 0 ++ nl
        ++ IndicesSet a "a_indices" (Rank a - 1) 0 ++ nl
        ++ "let a_offset = " ++ IndicesToOffset a "a_indices" ++ " * "
        ++ to_string a_components ++ ";" ++ nl
        ++ "var b_indices: b_indices_t;" ++ nl
        ++ convert "b" b (Rank b - 2) (Rank batch_dims) "batch_indices"
        ++ IndicesSet b "b_indices" (Rank b - 2) 0 ++ nl
        ++ IndicesSet b "b_indices" (Rank b - 1) 0 ++ nl
        ++ "let b_offset = " ++ IndicesToOffset b "b_indices" ++ "*"
        ++ to_string components ++ ";" ++ nl
        ++ "var values: array<output_value_t, " ++ to_string output_number_
        ++ ">;" ++ nl
        ++ "for (var k: u32 = 0u; k < uniforms.K; k = k + "
        ++ to_string a_components ++ ") {" ++ nl
        ++ CalcResult components a_components output_number_ ++ nl
        ++ "}" ++ nl
        ++ "for (var i = 0u; i < " ++ to_string output_number_ ++ "u; i++) {"
        ++ nl
        ++ "  var value = values[i];" ++ nl
        ++ process_bias ++ nl
        ++ "  let cur_indices = output_indices_t(batch, row + i, col/"
        ++ to_string components ++ ");" ++ nl
        ++ "  let offset = " ++ IndicesToOffset output "cur_indices" ++ ";"
        ++ nl
        ++ SetByOffset output "offset" "value"
        ++ "}" ++ nl) |}.

(** [GenerateShaderCode] of the program of a given class; the packed
    program's generator is not part of the sources at hand. *)
Definition generate (p : Program) (shader : ShaderHelper) : option ShaderCode :=
  match class p with
  | MatMulNativeProgram output_size_ output_number_ has_bias_ =>
      Some (GenerateShaderCode output_size_ output_number_ has_bias_ shader)
  | MatMulProgram _ _ _ => None
  end.

End Shader.

(** ** The overlap test of non-maximum suppression *)

Module nms_helpers.

(** The operations [SuppressByIOU] needs of its template parameter [T]. *)
Class Scalar (T : Type) : Type := {
  zero : T;
  two : T;
  add : T -> T -> T;
  sub : T -> T -> T;
  mul : T -> T -> T;
  div : T -> T -> T;
  ltb : T -> T -> bool;
  leb : T -> T -> bool;
  gtb : T -> T -> bool;
  geb : T -> T -> bool
}.

(** [T = float], the instantiation of [NonMaxSuppressionBase<float>]. *)
#[global] Instance float_Scalar : Scalar F32.float := {
  zero := F32.zero;
  two := F32.of_Z 2;
  add := F32.add;
  sub := F32.sub;
  mul := F32.mul;
  div := F32.div;
  ltb := F32.ltb;
  leb := F32.leb;
  gtb := fun x y => F32.ltb y x;
  geb := fun x y => F32.leb y x
}.

Section Template.

Context {T : Type} `{Scalar T}.

(** [std::max(a, b)] is [(a < b) ? b : a]. *)
Definition HelperMax (a b : T) : T := if ltb a b then b else a.

(** [std::min(a, b)] is [(b < a) ? b : a]. *)
Definition HelperMin (a b : T) : T := if ltb b a then b else a.

(** [MaxMin(lhs, rhs, min, max)]; the result is [(min, max)]. *)
Definition MaxMin (lhs rhs : T) : T * T :=
  if geb lhs rhs then (rhs, lhs) else (lhs, rhs).

(** The corners of a box as the two branches on [center_point_box]
    compute them. *)
Record Corners : Type := {
  x_min : T;
  y_min : T;
  x_max : T;
  y_max : T
}.

(** [boxes_data] is the memory behind the pointer; [box] is the offset
    [4 * box_index] of the box in it. *)
Definition corners (boxes_data : Z -> T) (box : Z) (center_point_box : Z)
  : Corners :=
  let at_ (i : Z) := boxes_data (box + i) in
  if 0 =? center_point_box then
    let '(xmin, xmax) := MaxMin (at_ 1) (at_ 3) in
    let '(ymin, ymax) := MaxMin (at_ 0) (at_ 2) in
    {| x_min := xmin; y_min := ymin; x_max := xmax; y_max := ymax |}
  else
    let width_half := div (at_ 2) two in
    let height_half := div (at_ 3) two in
    {| x_min := sub (at_ 0) width_half;
       y_min := sub (at_ 1) height_half;
       x_max := add (at_ 0) width_half;
       y_max := add (at_ 1) height_half |}.

Definition intersection_area (c1 c2 : Corners) : T :=
  let intersection_x_min := HelperMax (x_min c1) (x_min c2) in
  let intersection_y_min := HelperMax (y_min c1) (y_min c2) in
  let intersection_x_max := HelperMin (x_max c1) (x_max c2) in
  let intersection_y_max := HelperMin (y_max c1) (y_max c2) in
  mul (HelperMax (sub intersection_x_max intersection_x_min) zero)
      (HelperMax (sub intersection_y_max intersection_y_min) zero).

Definition area (c : Corners) : T :=
  mul (sub (x_max c) (x_min c)) (sub (y_max c) (y_min c)).

Definition union_area (c1 c2 : Corners) : T :=
  sub (add (area c1) (area c2)) (intersection_area c1 c2).

Definition intersection_over_union (c1 c2 : Corners) : T :=
  div (intersection_area c1 c2) (union_area c1 c2).

Definition SuppressByIOU (boxes_data : Z -> T) (box_index1 box_index2 : Z)
    (center_point_box : Z) (iou_threshold : T) : bool :=
  let c1 := corners boxes_data (4 * box_index1) center_point_box in
  let c2 := corners boxes_data (4 * box_index2) center_point_box in
  if leb (intersection_area c1 c2) zero then false
  else if leb (area c1) zero || leb (area c2) zero
          || leb (union_area c1 c2) zero
  then false
  else gtb (intersection_over_union c1 c2) iou_threshold.

End Template.

(** The memory holding the given values from address 0 on. *)
Definition memory_of (values : list Z) : Z -> F32.float :=
  fun i => if i <? 0 then F32.zero
           else F32.of_Z (nth (Z.to_nat i) values 0).

End nms_helpers.

(** ** Observations on a run *)

(** The programs handed to [RunProgram], in order. *)
Definition submitted (w : World) : list Program :=
  flat_map (fun e => match e with EvRunProgram p => [p] | _ => [] end)
           (events w).

(** The tensors copied from the device to the host, in order. *)
Definition readbacks (w : World) : list TensorShape :=
  flat_map (fun e => match e with EvCopyTensor s => [s] | _ => [] end)
           (events w).

(** The events that end [PrintGPUTensor] once the copy of a tensor of the
    given shape has been attempted: the log of the values when the copy
    succeeded, nothing when it failed. *)
Definition after_copy (context : ComputeContext) (shape : TensorShape)
  : list Event :=
  match copy_tensor context shape with
  | OK => [EvLogValues (logged_values shape)]
  | Error _ => []
  end.



(** The frame of local variables of the path [ComputeInternal] takes for a
    helper: the branch on [n < 8 && k < 8]. *)
Definition frame_of (wx wy wz : Z)
    (bts : TensorShape -> Z -> Z -> Z -> TensorShape)
    (context : ComputeContext) (helper : MatMulComputeHelper)
  : NativeFrame + PackedFrame :=
  let m := to_uint32 (M helper) in
  let n := to_uint32 (N helper) in
  let k := to_uint32 (K helper) in
  if (n <? 8) && (k <? 8)
  then inl (native_frame context helper m n k)
  else inr (packed_frame wx wy wz bts context helper).

Definition program_of (f : NativeFrame + PackedFrame) : Program :=
  match f with
  | inl nf => nf_program nf
  | inr pf => pf_program pf
  end.

(** Whether the path taken went through the rewrite for a batch of vectors
    times a matrix. *)
Definition rewrite_applied (f : NativeFrame + PackedFrame) : bool :=
  match f with
  | inl _ => false
  | inr pf => pf_rewritten pf
  end.

(** The exact number of groups of [per_group] elements that cover
    [extent] elements. *)
Definition ceil_div (extent per_group : Z) : Z :=
  (extent + per_group - 1) / per_group.

(** A context whose collaborators succeed and leave the output tensor as
    they find it. *)
Definition quiet_context (shapes : list TensorShape) : ComputeContext :=
  {| input_shapes := shapes;
     run_program := fun _ shape => (OK, shape);
     copy_tensor := fun _ => OK |}.

(** A context whose copy from the device fails. *)
Definition deaf_context (shapes : list TensorShape) : ComputeContext :=
  {| input_shapes := shapes;
     run_program := fun _ shape => (OK, shape);
     copy_tensor := fun _ => Error GenericFailure |}.

(** An instance of the helper of [matmul.h] for concrete runs: the outer
    dimensions followed by the two matrix dimensions, the last one divided
    by the component count. *)
Definition temp_shape_vector (outer : TensorShape) (d1 d2 components : Z)
  : TensorShape :=
  outer ++ [d1; Z.quot d2 components].

(** A run from the initial world with workgroup size 8 x 8 x 1. *)
Definition run (context : ComputeContext) : Status * World :=
  ComputeInternal 8 8 1 temp_shape_vector context initial.

Definition frame (context : ComputeContext) (helper : MatMulComputeHelper)
  : NativeFrame + PackedFrame :=
  frame_of 8 8 1 temp_shape_vector context helper.

(** A context whose execution leaves the output tensor with the shape the
    program declares for its first output. *)
Definition shader_shaped_context (shapes : list TensorShape) : ComputeContext :=
  {| input_shapes := shapes;
     run_program := fun p shape =>
       (OK, match outputs p with
            | {| override_shape := Some s |} :: _ => s
            | _ => shape
            end);
     copy_tensor := fun _ => OK |}.

(** ** binary64 arithmetic *)

Module F64.

Definition prec : Z := 53.
Definition emax : Z := 1024.

(** [double], kept apart from [float]. *)
Record float : Type := of_spec { to_spec : spec_float }.

(** [static_cast<double>(z)] and the literals [1.0], [0]. *)
Definition of_Z (z : Z) : float :=
  of_spec (binary_normalize prec emax z 0 false).

(** The conversion of a [float] to [double], which is exact. *)
Definition of_float (x : F32.float) : float :=
  of_spec match x with
          | S754_finite s m e => binary_round prec emax s m e
          | _ => x
          end.

Definition lift2 (op : spec_float -> spec_float -> spec_float)
    (x y : float) : float :=
  of_spec (op (to_spec x) (to_spec y)).

Definition add : float -> float -> float := lift2 (SFadd prec emax).
Definition sub : float -> float -> float := lift2 (SFsub prec emax).
Definition mul : float -> float -> float := lift2 (SFmul prec emax).
Definition div : float -> float -> float := lift2 (SFdiv prec emax).

Definition eqb (x y : float) : bool := SFeqb (to_spec x) (to_spec y).

(** [ceil] on [double]. *)
Definition ceil (x : float) : float :=
  of_spec match to_spec x with
          | S754_finite s m e =>
              if 0 <=? e then to_spec x
              else match F32.ceil_scaled (cond_Zopp s (Zpos m)) e with
                   | Z0 => S754_zero s
                   | q => binary_normalize prec emax q 0 s
                   end
          | other => other
          end.

(** [static_cast<int64_t>(x)]: truncation towards zero, undefined ([None])
    when the truncated value is not an [int64_t]. *)
Definition to_int64 (x : float) : option Z :=
  match F32.trunc (to_spec x) with
  | Some t => if (- 2 ^ 63 <=? t) && (t <? 2 ^ 63) then Some t else None
  | None => None
  end.

End F64.

(** ** The Range kernel *)

Module range.

(** What [Impl] needs of its template parameter [T]: [T{0}], [T{1}], [==],
    [-], [+] and the conversion to [double] in [1.0 * (limit - start)] and
    in the division by [delta].  The instances are the floating-point
    instantiations; at the integer types the subtraction and the addition
    can overflow, which is undefined and outside this model. *)
Class Element (T : Type) : Type := {
  zero : T;
  one : T;
  equal : T -> T -> bool;
  minus : T -> T -> T;
  plus : T -> T -> T;
  to_double : T -> F64.float
}.

#[global] Instance double_Element : Element F64.float := {
  zero := F64.of_Z 0;
  one := F64.of_Z 1;
  equal := F64.eqb;
  minus := F64.sub;
  plus := F64.add;
  to_double := fun x => x
}.

#[global] Instance float_Element : Element F32.float := {
  zero := F32.of_Z 0;
  one := F32.of_Z 1;
  equal := SFeqb;
  minus := F32.sub;
  plus := F32.add;
  to_double := F64.of_float
}.

(** A tensor as the kernel reads it: its shape and the memory behind
    [Data<T>()]. *)
Record Tensor (T : Type) : Type := {
  Shape : TensorShape;
  Data : Z -> T
}.

Arguments Shape {T} _.
Arguments Data {T} _.

(** The result of a call: [None] where the behaviour is undefined (the
    conversion of the element count to [int64_t]); otherwise the status and
    the output tensor, if one was requested from the context, with its
    shape and the values written to it. *)
Definition Result (T : Type) : Type :=
  option (Status * option (TensorShape * list T)).

Section Template.

Context {T : Type} `{Element T}.

(** [for (int64_t i = 0; i < n; ++i) { *y++ = start; start += delta; }] *)
Fixpoint fill (n : nat) (start delta : T) : list T :=
  match n with
  | O => []
  | S n' => start :: fill n' (plus start delta) delta
  end.

(** [static_cast<int64_t>(ceil((1.0 * (limit - start)) / delta))] *)
Definition count (start limit delta : T) : option Z :=
  F64.to_int64
    (F64.ceil (F64.div (F64.mul (F64.of_Z 1) (to_double (minus limit start)))
                       (to_double delta))).

Definition Impl (start limit : T) (p_delta : option T) : Result T :=
  let delta := match p_delta with None => one | Some d => d end in
  if equal delta zero then Some (Error InvalidArgument, None)
  else
    match count start limit delta with
    | None => None
    | Some n =>
        let n := if n <=? 0 then 0 else n in
        let shape := [n] in
        Some (OK, Some (shape, fill (Z.to_nat n) start delta))
    end.

(** [TensorShape::IsScalar] is not part of the sources at hand. *)
Variable IsScalar : TensorShape -> bool.

Definition ComputeRange (start_tensor limit_tensor : Tensor T)
    (delta_tensor_ptr : option (Tensor T)) : Result T :=
  if negb (IsScalar (Shape start_tensor))
  then Some (Error InvalidArgument, None)
  else if negb (IsScalar (Shape limit_tensor))
  then Some (Error InvalidArgument, None)
  else if match delta_tensor_ptr with
          | Some delta_tensor => negb (IsScalar (Shape delta_tensor))
          | None => false
          end
  then Some (Error InvalidArgument, None)
  else Impl (Data start_tensor 0) (Data limit_tensor 0)
            (match delta_tensor_ptr with
             | Some delta_tensor => Some (Data delta_tensor 0)
             | None => None
             end).

End Template.

(** A scalar tensor holding [x]. *)
Definition scalar (x : Z) : Tensor F64.float :=
  {| Shape := []; Data := fun _ => F64.of_Z x |}.

(** An instance of [IsScalar] for concrete runs: rank 0, or rank 1 with
    one element. *)
Definition is_scalar (shape : TensorShape) : bool :=
  match shape with
  | [] => true
  | [d] => d =? 1
  | _ => false
  end.

End range.

(** The parameters of a program that its generated source depends on,
    apart from the bias flag and [output_size_]: the component counts of A,
    B and the output, and the row tile of the Native class or the
    elements per thread and the vec4 flag of the Packed class. *)
Definition kernel_parameters (p : Program) : list Z * (list Z * bool) :=
  (map component (firstn 2 (inputs p)) ++ map component (outputs p),
   match class p with
   | MatMulNativeProgram _ output_number_ _ => ([output_number_], false)
   | MatMulProgram _ is_vec4_ elements_per_thread_ =>
       (elements_per_thread_, is_vec4_)
   end).

Definition bias_flag (p : Program) : bool :=
  match class p with
  | MatMulNativeProgram _ _ has_bias_ => has_bias_
  | MatMulProgram has_bias_ _ _ => has_bias_
  end.

(** An instance of the shader helper for concrete runs: variables of rank
    2 with one component, indices of rank 0, and fragments that spell out
    the call that produced them. *)
Definition plain_variable (name : string) (rank components : Z)
  : Shader.ShaderVariableHelper :=
  {| Shader.NumComponents := components;
     Shader.Rank := rank;
     Shader.OffsetToIndices := fun offset =>
       (name ++ "_offset_to_indices(" ++ offset ++ ")")%string;
     Shader.IndicesSet := fun indices idx value =>
       (indices ++ "[" ++ to_string idx ++ "]=" ++ to_string value ++ ";")%string;
     Shader.IndicesToOffset := fun indices =>
       (name ++ "_indices_to_offset(" ++ indices ++ ")")%string;
     Shader.SetByOffset := fun offset value =>
       (name ++ "[" ++ offset ++ "]=" ++ value ++ ";")%string |}.

Definition plain_shader : Shader.ShaderHelper :=
  {| Shader.AddInput := fun name _ => plain_variable name 2 1;
     Shader.AddOutput := fun name _ => plain_variable name 2 1;
     Shader.AddIndices := fun name => plain_variable name 0 1;
     Shader.GuardAgainstOutOfBoundsWorkgroupSizes := fun size =>
       ("if (global_idx >= " ++ size ++ ") { return; }")%string;
     Shader.ConvertOutputBatchIndicesToInputBatchIndices :=
       fun _ _ _ _ _ => EmptyString |}.

(** * Properties *)

(** ** What every run that resolves its shapes does *)

Section Run.

Variables wx wy wz : Z.
Variable bts : TensorShape -> Z -> Z -> Z -> TensorShape.
Variable context : ComputeContext.

Let resolved : MatMulComputeHelper + StatusCode :=
  Compute (Input context 0) (Input context 1).

Lemma ComputeInternal_resolved (helper : MatMulComputeHelper) (w : World) :
  resolved = inl helper ->
  ComputeInternal wx wy wz bts context w =
  run_and_print context helper
    (program_of (frame_of wx wy wz bts context helper))
    (Output 0 (OutputShape helper) w).
Proof.
  unfold resolved, ComputeInternal, frame_of. intros ->.
  destruct ((to_uint32 (N helper) <? 8) && (to_uint32 (K helper) <? 8));
    reflexivity.
Qed.

Lemma ComputeInternal_rejected (code : StatusCode) (w : World) :
  resolved = inr code ->
  ComputeInternal wx wy wz bts context w = (Error code, w).
Proof.
  unfold resolved, ComputeInternal. intros ->. reflexivity.
Qed.

Lemma run_and_print_events (helper : MatMulComputeHelper) (p : Program) (w : World) :
  events (snd (run_and_print context helper p w)) =
  events w ++ [EvRunProgram p; EvReshape (OutputShape helper);
               EvCreateCPUTensor (OutputShape helper);
               EvCopyTensor (OutputShape helper)]
           ++ after_copy context (OutputShape helper).
Proof.
  unfold run_and_print, RunProgram, PrintGPUTensor, return_if_error, CopyTensor,
    after_copy.
  destruct (run_program context p (tensor_shape w)) as [st shape].
  cbn. destruct (copy_tensor context (OutputShape helper));
    cbn; repeat rewrite <- app_assoc; reflexivity.
Qed.

Lemma run_and_print_tensor (helper : MatMulComputeHelper) (p : Program) (w : World) :
  output_tensor (snd (run_and_print context helper p w)) =
  Some (OutputShape helper).
Proof.
  unfold run_and_print, RunProgram, PrintGPUTensor, return_if_error, CopyTensor.
  destruct (run_program context p (tensor_shape w)) as [st shape].
  cbn. destruct (copy_tensor context (OutputShape helper));
    reflexivity.
Qed.

Lemma run_and_print_status (helper : MatMulComputeHelper) (p : Program) (w : World) :
  fst (run_and_print context helper p w) =
  match copy_tensor context (OutputShape helper) with
  | OK => fst (run_program context p (tensor_shape w))
  | Error code => Error code
  end.
Proof.
  unfold run_and_print, RunProgram, PrintGPUTensor, return_if_error, CopyTensor.
  destruct (run_program context p (tensor_shape w)) as [st shape].
  cbn. destruct (copy_tensor context (OutputShape helper));
    reflexivity.
Qed.

Lemma ComputeInternal_events (helper : MatMulComputeHelper) :
  resolved = inl helper ->
  events (snd (ComputeInternal wx wy wz bts context initial)) =
  [EvOutput 0 (OutputShape helper);
   EvRunProgram (program_of (frame_of wx wy wz bts context helper));
   EvReshape (OutputShape helper);
   EvCreateCPUTensor (OutputShape helper);
   EvCopyTensor (OutputShape helper)]
  ++ after_copy context (OutputShape helper).
Proof.
  intros Hr. rewrite (ComputeInternal_resolved helper initial Hr).
  rewrite run_and_print_events. reflexivity.
Qed.

Lemma ComputeInternal_submitted (helper : MatMulComputeHelper) :
  resolved = inl helper ->
  submitted (snd (ComputeInternal wx wy wz bts context initial)) =
  [program_of (frame_of wx wy wz bts context helper)].
Proof.
  intros Hr. unfold submitted.
  rewrite (ComputeInternal_events helper Hr). unfold after_copy.
  destruct (copy_tensor context (OutputShape helper)); reflexivity.
Qed.


End Run.

(** ** Strategy selection *)

Lemma to_uint32_small (x : Z) : 0 <= x < 2 ^ 32 -> to_uint32 x = x.
Proof. intros Hx. unfold to_uint32. apply Z.mod_small. exact Hx. Qed.

Lemma strategy_of_frame wx wy wz bts context helper :
  strategy_of (program_of (frame_of wx wy wz bts context helper)) =
  if (to_uint32 (N helper) <? 8) && (to_uint32 (K helper) <? 8)
  then Native else Packed.
Proof.
  unfold frame_of.
  destruct ((to_uint32 (N helper) <? 8) && (to_uint32 (K helper) <? 8));
    reflexivity.
Qed.

(** C1, as stated, fails: for A = [1; 2^32] and B = [2^32; 1] the resolved
    K is 2^32, which is not below 8, and the run selects Native, because the
    comparison is made on [static_cast<uint32_t>(K) = 0].  The same happens
    for the empty tensors A = [0; 2^32] and B = [2^32; 0]. *)
Lemma wide_K_selects_Native :
  (Compute [1; 4294967296] [4294967296; 1] =
     inl {| M := 1; N := 1; K := 4294967296; OutputShape := [1; 1] |} /\
   map strategy_of
       (submitted (snd (run (quiet_context [[1; 4294967296]; [4294967296; 1]]))))
     = [Native] /\
   ~ (1 < 8 /\ 4294967296 < 8)) /\
  (Compute [0; 4294967296] [4294967296; 0] =
     inl {| M := 0; N := 0; K := 4294967296; OutputShape := [0; 0] |} /\
   map strategy_of
       (submitted (snd (run (quiet_context [[0; 4294967296]; [4294967296; 0]]))))
     = [Native] /\
   ~ (0 < 8 /\ 4294967296 < 8)).
Proof.
  split; (split; [reflexivity|]); (split; [vm_compute; reflexivity|]); lia.
Qed.

(** C1 (amended): for every pair of resolved dimensions N and K, exactly one
    program is submitted, and it is the Native one if and only if
    N mod 2^32 < 8 and K mod 2^32 < 8, and the Packed one otherwise; for N
    and K below 2^32 that is N < 8 and K < 8, so N=8,K=7 and N=7,K=8 select
    Packed and N=7,K=7 selects Native. *)
Theorem strategy_selection wx wy wz bts context helper :
  Compute (Input context 0) (Input context 1) = inl helper ->
  exists p,
    submitted (snd (ComputeInternal wx wy wz bts context initial)) = [p] /\
    (strategy_of p = Native <->
     to_uint32 (N helper) < 8 /\ to_uint32 (K helper) < 8) /\
    (strategy_of p = Packed <->
     ~ (to_uint32 (N helper) < 8 /\ to_uint32 (K helper) < 8)) /\
    (0 <= N helper < 2 ^ 32 -> 0 <= K helper < 2 ^ 32 ->
     (strategy_of p = Native <-> N helper < 8 /\ K helper < 8)) /\
    (N helper = 8 -> K helper = 7 -> strategy_of p = Packed) /\
    (N helper = 7 -> K helper = 8 -> strategy_of p = Packed) /\
    (N helper = 7 -> K helper = 7 -> strategy_of p = Native).
Proof.
  intros Hr. eexists. split.
  - apply ComputeInternal_submitted. exact Hr.
  - rewrite strategy_of_frame.
    assert (Hsel : forall n k,
               ((if (n <? 8) && (k <? 8) then Native else Packed) = Native
                <-> n < 8 /\ k < 8) /\
               ((if (n <? 8) && (k <? 8) then Native else Packed) = Packed
                <-> ~ (n < 8 /\ k < 8))).
    { intros n k.
      destruct (Z.ltb_spec n 8); destruct (Z.ltb_spec k 8); cbn;
        repeat split; intros; try discriminate; try lia; try reflexivity. }
    split; [exact (proj1 (Hsel _ _))|].
    split; [exact (proj2 (Hsel _ _))|].
    split.
    { intros HN HK.
      rewrite (to_uint32_small (N helper)), (to_uint32_small (K helper))
        by assumption.
      exact (proj1 (Hsel _ _)). }
    split; [intros -> ->; reflexivity|].
    split; intros -> ->; reflexivity.
Qed.

Lemma strategy_selection_witness :
  let context := quiet_context [[3; 7]; [7; 8]] in
  let helper := {| M := 3; N := 8; K := 7; OutputShape := [3; 8] |} in
  Compute (Input context 0) (Input context 1) = inl helper /\
  exists p,
    submitted (snd (ComputeInternal 8 8 1 temp_shape_vector context initial))
      = [p] /\
    (strategy_of p = Native <->
     to_uint32 (N helper) < 8 /\ to_uint32 (K helper) < 8) /\
    (strategy_of p = Packed <->
     ~ (to_uint32 (N helper) < 8 /\ to_uint32 (K helper) < 8)) /\
    (0 <= N helper < 2 ^ 32 -> 0 <= K helper < 2 ^ 32 ->
     (strategy_of p = Native <-> N helper < 8 /\ K helper < 8)) /\
    (N helper = 8 -> K helper = 7 -> strategy_of p = Packed) /\
    (N helper = 7 -> K helper = 8 -> strategy_of p = Packed) /\
    (N helper = 7 -> K helper = 7 -> strategy_of p = Native).
Proof.
  intros context helper. split.
  - reflexivity.
  - apply (strategy_selection 8 8 1 temp_shape_vector context helper).
    reflexivity.
Defined.

(** ** Zero-size outputs *)




(** ** The shape of the result tensor *)

(** C8: after every call that resolves its shapes, on the Native and on the
    Packed path, with or without the rewrite, and whatever shape the
    execution of the program left on the output tensor, the output tensor
    has the resolved output shape. *)
Theorem output_shape_restored wx wy wz bts context helper (w : World) :
  Compute (Input context 0) (Input context 1) = inl helper ->
  output_tensor (snd (ComputeInternal wx wy wz bts context w)) =
  Some (OutputShape helper).
Proof.
  intros Hr.
  rewrite (ComputeInternal_resolved wx wy wz bts context helper w Hr).
  apply run_and_print_tensor.
Qed.

Lemma output_shape_restored_witness :
  let context := shader_shaped_context [[16; 1; 8]; [8; 8]] in
  let helper := {| M := 1; N := 8; K := 8; OutputShape := [16; 1; 8] |} in
  Compute (Input context 0) (Input context 1) = inl helper /\
  output_tensor
    (snd (ComputeInternal 8 8 1 temp_shape_vector context initial)) =
  Some (OutputShape helper).
Proof.
  intros context helper. split.
  - reflexivity.
  - apply (output_shape_restored 8 8 1 temp_shape_vector context helper
             initial).
    reflexivity.
Defined.

(** ** The copy of the output to the host *)

(** C9, as stated, fails: an ordinary run, here A = [2; 3] and B = [3; 4]
    with nothing that asks for a readback, copies the output tensor from the
    device to the host; and when that copy fails the run returns its
    error. *)
Lemma ordinary_run_reads_back :
  readbacks (snd (run (quiet_context [[2; 3]; [3; 4]]))) = [[2; 4]] /\
  fst (run (deaf_context [[2; 3]; [3; 4]])) = Error GenericFailure.
Proof.
  split; vm_compute; reflexivity.
Qed.

(** C9 (amended): every call that resolves its shapes performs the
    copy-output-to-host readback of [PrintGPUTensor], once, after the program
    has been handed to RunProgram and on both paths; nothing in the call
    requests or suppresses it, and a failing copy makes the call return the
    copy's error in place of RunProgram's status. *)
Theorem readback_on_every_run wx wy wz bts context helper :
  Compute (Input context 0) (Input context 1) = inl helper ->
  let result := ComputeInternal wx wy wz bts context initial in
  readbacks (snd result) = [OutputShape helper] /\
  (exists p before after,
      events (snd result) =
      before ++ EvRunProgram p :: after /\
      In (EvCopyTensor (OutputShape helper)) after) /\
  (forall code, copy_tensor context (OutputShape helper) = Error code ->
                fst result = Error code).
Proof.
  intros Hr result. unfold result.
  pose proof (ComputeInternal_events wx wy wz bts context helper Hr) as Hev.
  split; [|split].
  - unfold readbacks. rewrite Hev. unfold after_copy.
    destruct (copy_tensor context (OutputShape helper)); reflexivity.
  - exists (program_of (frame_of wx wy wz bts context helper)).
    exists [EvOutput 0 (OutputShape helper)].
    eexists. split; [rewrite Hev; reflexivity|].
    cbn. auto.
  - intros code Hcopy.
    rewrite (ComputeInternal_resolved wx wy wz bts context helper initial Hr).
    rewrite run_and_print_status, Hcopy. reflexivity.
Qed.

Lemma readback_on_every_run_witness :
  let context := deaf_context [[2; 3]; [3; 4]] in
  let helper := {| M := 2; N := 4; K := 3; OutputShape := [2; 4] |} in
  Compute (Input context 0) (Input context 1) = inl helper /\
  let result := ComputeInternal 8 8 1 temp_shape_vector context initial in
  readbacks (snd result) = [OutputShape helper] /\
  (exists p before after,
      events (snd result) =
      before ++ EvRunProgram p :: after /\
      In (EvCopyTensor (OutputShape helper)) after) /\
  (forall code, copy_tensor context (OutputShape helper) = Error code ->
                fst result = Error code).
Proof.
  intros context helper. split.
  - reflexivity.
  - apply (readback_on_every_run 8 8 1 temp_shape_vector context helper).
    reflexivity.
Defined.

(** ** What the helper guarantees *)

Lemma dim_matrix_rows (outer : list Z) (m n : Z) :
  dim (outer ++ [m; n]) (NumDimensions (outer ++ [m; n]) - 2) = m.
Proof.
  unfold dim, NumDimensions. rewrite length_app. cbn [List.length].
  replace (List.length outer + 2 - 2)%nat with (List.length outer) by lia.
  rewrite app_nth2 by lia. rewrite Nat.sub_diag. reflexivity.
Qed.

Lemma Compute_resolved (a b : TensorShape) (helper : MatMulComputeHelper) :
  Compute a b = inl helper ->
  M helper = dim a (NumDimensions a - 2) /\
  K helper = dim a (NumDimensions a - 1) /\
  N helper = dim b (NumDimensions b - 1) /\
  dim (OutputShape helper) (NumDimensions (OutputShape helper) - 2) = M helper.
Proof.
  unfold Compute.
  destruct ((NumDimensions a <? 2)%nat || (NumDimensions b <? 2)%nat);
    [discriminate|].
  destruct (negb (dim b (NumDimensions b - 2) =? dim a (NumDimensions a - 1)));
    [discriminate|].
  destruct (broadcast _ _) as [outer|]; [|discriminate].
  intros Hh. injection Hh as <-. cbn [M N K OutputShape].
  repeat split. apply dim_matrix_rows.
Qed.

(** ** Wrap-around keeps divisibility by 4 and by 2 *)

Lemma rem_zero_iff_mod_zero (x c : Z) :
  0 < c -> (Z.rem x c =? 0) = (x mod c =? 0).
Proof.
  intros Hc.
  destruct (Z.eqb_spec (Z.rem x c) 0) as [Hr|Hr];
    destruct (Z.eqb_spec (x mod c) 0) as [Hm|Hm]; try reflexivity; exfalso.
  - apply Hm. apply Z.mod_divide; [lia|]. apply Z.rem_divide; [lia|exact Hr].
  - apply Hr. apply Z.rem_divide; [lia|]. apply Z.mod_divide; [lia|exact Hm].
Qed.

Lemma to_int32_mod4 (x : Z) : to_int32 x mod 4 = x mod 4.
Proof.
  unfold to_int32. change (2 ^ 32) with 4294967296.
  change (2 ^ 31) with 2147483648.
  Z.to_euclidean_division_equations. lia.
Qed.

Lemma to_uint32_mod4 (x : Z) : to_uint32 x mod 4 = x mod 4.
Proof.
  unfold to_uint32. change (2 ^ 32) with 4294967296.
  Z.to_euclidean_division_equations. lia.
Qed.

Lemma to_uint32_mod2 (x : Z) : to_uint32 x mod 2 = x mod 2.
Proof.
  unfold to_uint32. change (2 ^ 32) with 4294967296.
  Z.to_euclidean_division_equations. lia.
Qed.

Lemma GetMaxComponents_mod (d : Z) :
  GetMaxComponents d =
  if d mod 4 =? 0 then 4 else if d mod 2 =? 0 then 2 else 1.
Proof.
  unfold GetMaxComponents.
  rewrite !rem_zero_iff_mod_zero by lia. reflexivity.
Qed.

Lemma GetMaxComponents_to_uint32 (x : Z) :
  GetMaxComponents (to_uint32 x) = GetMaxComponents x.
Proof.
  rewrite !GetMaxComponents_mod, to_uint32_mod4, to_uint32_mod2. reflexivity.
Qed.

Lemma to_int32_small (x : Z) : - 2 ^ 31 <= x < 2 ^ 31 -> to_int32 x = x.
Proof.
  intros Hx. unfold to_int32. rewrite Z.mod_small; lia.
Qed.

(** ** The rewrite for a batch of vectors times a matrix *)

(** C3, as stated, fails twice.  For A = [2; 1; 4] and B = [4; 4] the
    precondition holds (M = 1, batchA = 2, batchB = 1) and the Native path is
    taken, which has no rewrite.  For A = [0; 1; 8] and B = [8; 8] the Packed
    path rewrites although batchA = 0 is not above 1: the test of the source
    is [batchA != 1]. *)
Lemma rewrite_not_as_stated :
  (let shapes := [[2; 1; 4]; [4; 4]] in
   let helper := {| M := 1; N := 4; K := 4; OutputShape := [2; 1; 4] |} in
   Compute [2; 1; 4] [4; 4] = inl helper /\
   SizeToDimension [2; 1; 4] 1 = 2 /\
   SizeToDimension [4; 4] 0 = 1 /\
   map strategy_of (submitted (snd (run (quiet_context shapes)))) = [Native] /\
   rewrite_applied (frame (quiet_context shapes) helper) = false) /\
  (let shapes := [[0; 1; 8]; [8; 8]] in
   let helper := {| M := 1; N := 8; K := 8; OutputShape := [0; 1; 8] |} in
   Compute [0; 1; 8] [8; 8] = inl helper /\
   SizeToDimension [0; 1; 8] 1 = 0 /\
   SizeToDimension [8; 8] 0 = 1 /\
   map strategy_of (submitted (snd (run (quiet_context shapes)))) = [Packed] /\
   rewrite_applied (frame (quiet_context shapes) helper) = true).
Proof.
  split; cbv zeta; repeat split; vm_compute; reflexivity.
Qed.

(** C3 (amended): the batched-vector-times-matrix rewrite exists on the
    Packed path only; there it is applied if and only if M == 1 and
    batchA != 1 and batchB == 1, and on the Native path it is never applied.
    When it applies, the shapes are rewritten to A' = [1, batchA, K],
    B' = [1, K, N], output' = [1, batchA, N]; otherwise the Packed path works
    on the shapes of A, B and the resolved output shape. *)
Theorem batched_vector_rewrite wx wy wz bts context helper :
  Compute (Input context 0) (Input context 1) = inl helper ->
  let a := Input context 0 in
  let b := Input context 1 in
  let batchA := SizeToDimension a (NumDimensions a - 2) in
  let batchB := SizeToDimension b (NumDimensions b - 2) in
  let f := frame_of wx wy wz bts context helper in
  (rewrite_applied f = true <->
   strategy_of (program_of f) = Packed /\
   M helper = 1 /\ batchA <> 1 /\ batchB = 1) /\
  (forall pf, f = inr pf ->
     if pf_rewritten pf
     then pf_a_shape pf = [1; batchA; K helper] /\
          pf_b_shape pf = [1; K helper; N helper] /\
          pf_output_shape pf = [1; batchA; N helper]
     else pf_a_shape pf = a /\
          pf_b_shape pf = b /\
          pf_output_shape pf = OutputShape helper).
Proof.
  intros Hr a b batchA batchB f.
  destruct (Compute_resolved _ _ _ Hr) as (_ & _ & _ & Hm).
  unfold f, frame_of.
  destruct ((to_uint32 (N helper) <? 8) && (to_uint32 (K helper) <? 8)).
  - split.
    + cbn. split; [discriminate|]. intros (Hp & _). discriminate Hp.
    + intros pf Hpf. discriminate Hpf.
  - split.
    + cbn [rewrite_applied program_of packed_frame pf_rewritten pf_program
             strategy_of class].
      fold a b batchA batchB. rewrite Hm.
      rewrite !andb_true_iff, negb_true_iff, !Z.eqb_eq, Z.eqb_neq.
      intuition.
    + intros pf Hpf. injection Hpf as <-.
      cbn [packed_frame pf_rewritten pf_a_shape pf_b_shape pf_output_shape].
      fold a b batchA batchB.
      destruct (negb (batchA =? 1) && _ && (batchB =? 1));
        repeat split; reflexivity.
Qed.

Lemma batched_vector_rewrite_witness :
  let context := quiet_context [[16; 1; 8]; [8; 8]] in
  let helper := {| M := 1; N := 8; K := 8; OutputShape := [16; 1; 8] |} in
  Compute (Input context 0) (Input context 1) = inl helper /\
  let a := Input context 0 in
  let b := Input context 1 in
  let batchA := SizeToDimension a (NumDimensions a - 2) in
  let batchB := SizeToDimension b (NumDimensions b - 2) in
  let f := frame_of 8 8 1 temp_shape_vector context helper in
  (rewrite_applied f = true <->
   strategy_of (program_of f) = Packed /\
   M helper = 1 /\ batchA <> 1 /\ batchB = 1) /\
  (forall pf, f = inr pf ->
     if pf_rewritten pf
     then pf_a_shape pf = [1; batchA; K helper] /\
          pf_b_shape pf = [1; K helper; N helper] /\
          pf_output_shape pf = [1; batchA; N helper]
     else pf_a_shape pf = a /\
          pf_b_shape pf = b /\
          pf_output_shape pf = OutputShape helper).
Proof.
  intros context helper. split.
  - reflexivity.
  - apply (batched_vector_rewrite 8 8 1 temp_shape_vector context helper).
    reflexivity.
Defined.

(** ** The parameters of the Packed path *)

(** C5, as stated, fails for [elements_per_thread].  For A = [16; 1; 8] and
    B = [8; 8] the resolved M is 1, yet the tuple is (4,4,1): the rewrite has
    put batchA = 16 in the row position.  For A = [2147483648; 8] and
    B = [8; 8] the resolved M is 2^31, yet the tuple is (4,1,1): the test is
    made on [static_cast<int32_t>(M)], which is negative. *)
Lemma elements_per_thread_not_by_M :
  (let context := quiet_context [[16; 1; 8]; [8; 8]] in
   let helper := {| M := 1; N := 8; K := 8; OutputShape := [16; 1; 8] |} in
   Compute (Input context 0) (Input context 1) = inl helper /\
   exists pf, frame context helper = inr pf /\
              pf_elements_per_thread pf = [4; 4; 1] /\
              M helper <= 8) /\
  (let context := quiet_context [[2147483648; 8]; [8; 8]] in
   let helper := {| M := 2147483648; N := 8; K := 8;
                    OutputShape := [2147483648; 8] |} in
   Compute (Input context 0) (Input context 1) = inl helper /\
   exists pf, frame context helper = inr pf /\
              pf_elements_per_thread pf = [4; 1; 1] /\
              ~ M helper <= 8).
Proof.
  split; cbv zeta; (split; [reflexivity|]); eexists;
    (split; [vm_compute; reflexivity|]); split;
    [reflexivity|cbn; lia|reflexivity|cbn; lia].
Qed.

(** C5 (amended): on the Packed path, for all resolved shapes: is_vec4 holds
    if and only if K % 4 == 0 and N % 4 == 0; components equals 4 when
    is_vec4 and 1 otherwise; and elements_per_thread equals (4,1,1) when
    dim_a_outer <= 8 and (4,4,1) otherwise, where dim_a_outer is the
    conversion to int32 of M, or of batchA when the rewrite applies; so
    without the rewrite and for M below 2^31 it is (4,1,1) when M <= 8 and
    (4,4,1) otherwise.  The program is built with these values. *)
Theorem packed_parameters wx wy wz bts context helper pf :
  Compute (Input context 0) (Input context 1) = inl helper ->
  frame_of wx wy wz bts context helper = inr pf ->
  let a := Input context 0 in
  let batchA := SizeToDimension a (NumDimensions a - 2) in
  let rows := if pf_rewritten pf then batchA else M helper in
  (pf_is_vec4 pf = true <-> K helper mod 4 = 0 /\ N helper mod 4 = 0) /\
  pf_components pf = (if pf_is_vec4 pf then 4 else 1) /\
  pf_dim_a_outer pf = to_int32 rows /\
  pf_elements_per_thread pf =
    (if to_int32 rows <=? 8 then [4; 1; 1] else [4; 4; 1]) /\
  (pf_rewritten pf = false -> 0 <= M helper < 2 ^ 31 ->
   pf_elements_per_thread pf =
     (if M helper <=? 8 then [4; 1; 1] else [4; 4; 1])) /\
  class (pf_program pf) =
    MatMulProgram (has_bias context) (pf_is_vec4 pf)
                  (pf_elements_per_thread pf) /\
  map component (inputs (pf_program pf) ++ outputs (pf_program pf)) =
    [pf_components pf; pf_components pf]
    ++ map component (bias_input context) ++ [pf_components pf].
Proof.
  intros Hr Hf a batchA rows.
  destruct (Compute_resolved _ _ _ Hr) as (HM & HK & HN & Hm).
  unfold frame_of in Hf.
  destruct ((to_uint32 (N helper) <? 8) && (to_uint32 (K helper) <? 8));
    [discriminate|].
  injection Hf as <-. subst rows batchA a.
  cbn [packed_frame pf_rewritten pf_is_vec4 pf_components pf_dim_a_outer
       pf_elements_per_thread pf_program class inputs outputs].
  rewrite Hm.
  set (rewritten := negb (_ =? 1) && (M helper =? 1) && _).
  clearbody rewritten.
  assert (Hvec : forall k n,
             (Z.rem (to_int32 k) 4 =? 0) && (Z.rem (to_int32 n) 4 =? 0) = true
             <-> k mod 4 = 0 /\ n mod 4 = 0).
  { intros k n.
    rewrite andb_true_iff, !rem_zero_iff_mod_zero, !Z.eqb_eq by lia.
    rewrite !to_int32_mod4. reflexivity. }
  destruct rewritten.
  - change (dim [1; ?x; ?y] (NumDimensions [1; ?x; ?y] - 2)) with x.
    cbn [dim NumDimensions List.length Nat.sub nth].
    split; [apply Hvec|].
    repeat (split; [reflexivity|]).
    split; [discriminate|].
    split; [reflexivity|].
    rewrite !map_app. reflexivity.
  - rewrite <- HM, <- HK, <- HN.
    split; [apply Hvec|].
    repeat (split; [reflexivity|]).
    split.
    { intros _ HM31. rewrite to_int32_small by lia. reflexivity. }
    split; [reflexivity|].
    rewrite !map_app. reflexivity.
Qed.

Lemma packed_parameters_witness :
  let context := quiet_context [[16; 1; 8]; [8; 8]] in
  let helper := {| M := 1; N := 8; K := 8; OutputShape := [16; 1; 8] |} in
  let pf := packed_frame 8 8 1 temp_shape_vector context helper in
  let a := Input context 0 in
  let batchA := SizeToDimension a (NumDimensions a - 2) in
  let rows := if pf_rewritten pf then batchA else M helper in
  (Compute (Input context 0) (Input context 1) = inl helper /\
   frame_of 8 8 1 temp_shape_vector context helper = inr pf) /\
  (pf_is_vec4 pf = true <-> K helper mod 4 = 0 /\ N helper mod 4 = 0) /\
  pf_components pf = (if pf_is_vec4 pf then 4 else 1) /\
  pf_dim_a_outer pf = to_int32 rows /\
  pf_elements_per_thread pf =
    (if to_int32 rows <=? 8 then [4; 1; 1] else [4; 4; 1]) /\
  (pf_rewritten pf = false -> 0 <= M helper < 2 ^ 31 ->
   pf_elements_per_thread pf =
     (if M helper <=? 8 then [4; 1; 1] else [4; 4; 1])) /\
  class (pf_program pf) =
    MatMulProgram (has_bias context) (pf_is_vec4 pf)
                  (pf_elements_per_thread pf) /\
  map component (inputs (pf_program pf) ++ outputs (pf_program pf)) =
    [pf_components pf; pf_components pf]
    ++ map component (bias_input context) ++ [pf_components pf].
Proof.
  intros context helper pf a batchA rows. split.
  - split; reflexivity.
  - apply (packed_parameters 8 8 1 temp_shape_vector context helper pf);
      reflexivity.
Defined.

(** ** The parameters of the Native path *)

(** C6, as stated, fails for [output_size]: for A = [4294967297; 1] and
    B = [1; 1] the widths are all 1 and the output has 2^32 + 1 elements, yet
    [output_size] is 1, the quotient converted to [uint32_t]. *)
Lemma output_size_wraps :
  let context := quiet_context [[4294967297; 1]; [1; 1]] in
  let helper := {| M := 4294967297; N := 1; K := 1;
                   OutputShape := [4294967297; 1] |} in
  Compute (Input context 0) (Input context 1) = inl helper /\
  exists nf, frame context helper = inl nf /\
             nf_components nf = 1 /\
             nf_output_number nf = 1 /\
             nf_output_size nf = 1 /\
             Size (OutputShape helper) / 1 / 1 = 4294967297.
Proof.
  cbv zeta. split; [reflexivity|]. eexists.
  split; [vm_compute; reflexivity|]. repeat split.
Qed.

(** C6 (amended): for every non-negative d, MaxComponentWidth(d) returns 4
    when d % 4 == 0, else 2 when d % 2 == 0, else 1, the largest value in
    {4,2,1} that evenly divides d; on the Native path
    components = MaxComponentWidth(N), a_components = MaxComponentWidth(K),
    output_number = MaxComponentWidth(M), and output_size is
    size(output_shape) / components / output_number reduced modulo 2^32 (the
    quotient itself when that is below 2^32). *)
Theorem native_parameters (d : Z) wx wy wz bts context helper nf :
  0 <= d ->
  Compute (Input context 0) (Input context 1) = inl helper ->
  frame_of wx wy wz bts context helper = inl nf ->
  let quotient :=
    Z.quot (Z.quot (Size (OutputShape helper)) (nf_components nf))
           (nf_output_number nf) in
  GetMaxComponents d =
    (if d mod 4 =? 0 then 4 else if d mod 2 =? 0 then 2 else 1) /\
  (GetMaxComponents d | d) /\
  (forall c, In c [4; 2; 1] -> (c | d) -> c <= GetMaxComponents d) /\
  nf_components nf = GetMaxComponents (N helper) /\
  nf_a_components nf = GetMaxComponents (K helper) /\
  nf_output_number nf = GetMaxComponents (M helper) /\
  nf_output_size nf = quotient mod 2 ^ 32 /\
  (0 <= quotient < 2 ^ 32 -> nf_output_size nf = quotient).
Proof.
  intros Hd Hr Hf quotient.
  split; [apply GetMaxComponents_mod|].
  split.
  { rewrite GetMaxComponents_mod.
    destruct (Z.eqb_spec (d mod 4) 0) as [H4|H4].
    - apply Z.mod_divide; [lia|exact H4].
    - destruct (Z.eqb_spec (d mod 2) 0) as [H2|H2].
      + apply Z.mod_divide; [lia|exact H2].
      + apply Z.divide_1_l. }
  split.
  { intros c Hc Hdiv. rewrite GetMaxComponents_mod.
    cbn in Hc. destruct Hc as [<-|[<-|[<-|[]]]].
    - apply Z.mod_divide in Hdiv; [|lia]. rewrite Hdiv. cbn. lia.
    - apply Z.mod_divide in Hdiv; [|lia]. rewrite Hdiv.
      destruct (d mod 4 =? 0); cbn; lia.
    - destruct (d mod 4 =? 0); [lia|]. destruct (d mod 2 =? 0); lia. }
  unfold frame_of in Hf.
  destruct ((to_uint32 (N helper) <? 8) && (to_uint32 (K helper) <? 8));
    [|discriminate].
  injection Hf as <-. subst quotient.
  cbn [native_frame nf_components nf_a_components nf_output_number
       nf_output_size].
  rewrite !GetMaxComponents_to_uint32.
  repeat (split; [reflexivity|]).
  intros Hq. apply to_uint32_small. exact Hq.
Qed.

Lemma native_parameters_witness :
  let d := 6 in
  let context := quiet_context [[5; 2; 3]; [3; 4]] in
  let helper := {| M := 2; N := 4; K := 3; OutputShape := [5; 2; 4] |} in
  let nf := native_frame context helper 2 4 3 in
  let quotient :=
    Z.quot (Z.quot (Size (OutputShape helper)) (nf_components nf))
           (nf_output_number nf) in
  (0 <= d /\
   Compute (Input context 0) (Input context 1) = inl helper /\
   frame_of 8 8 1 temp_shape_vector context helper = inl nf) /\
  GetMaxComponents d =
    (if d mod 4 =? 0 then 4 else if d mod 2 =? 0 then 2 else 1) /\
  (GetMaxComponents d | d) /\
  (forall c, In c [4; 2; 1] -> (c | d) -> c <= GetMaxComponents d) /\
  nf_components nf = GetMaxComponents (N helper) /\
  nf_a_components nf = GetMaxComponents (K helper) /\
  nf_output_number nf = GetMaxComponents (M helper) /\
  nf_output_size nf = quotient mod 2 ^ 32 /\
  (0 <= quotient < 2 ^ 32 -> nf_output_size nf = quotient).
Proof.
  intros d context helper nf quotient. split.
  - split; [lia|]. split; reflexivity.
  - apply (native_parameters d 8 8 1 temp_shape_vector context helper nf);
      [lia|reflexivity|reflexivity].
Defined.

(** ** The group counts *)

(** C7: the claim does not hold of the code.  For A = [16777217; 1] and
    B = [1; 1] the Native path has [output_size] 16777217 = 2^24 + 1, which
    [static_cast<float>] rounds to 2^24, so that the group count is 262144
    where the exact ceiling of 16777217 / 64 is 262145: the 64 * 262144
    invocations do not reach the last output element.  The same expression
    on the Packed path, at a column extent of 16777217 with 8 * 4 columns per
    group, gives 524288 in place of 524289. *)
Theorem native_group_count_falls_short :
  let context := quiet_context [[16777217; 1]; [1; 1]] in
  F32.of_Z 16777217 = F32.of_Z 16777216 /\
  (exists p,
      submitted (snd (run context)) = [p] /\
      strategy_of p = Native /\
      uniform_variables p = [16777217; 16777217; 1; 1] /\
      dispatch_group_size p = [Some 262144]) /\
  ceil_div 16777217 64 = 262145 /\
  64 * 262144 < 16777217 /\
  dispatch_count 16777217 8 4 = Some 524288 /\
  ceil_div 16777217 (8 * 4) = 524289.
Proof.
  cbv zeta. split; [vm_compute; reflexivity|].
  split.
  { eexists. split; [vm_compute; reflexivity|]. repeat split. }
  split; [vm_compute; reflexivity|].
  split; [lia|].
  split; vm_compute; reflexivity.
Qed.

(** ** The generated source and the cache hint *)

Lemma length_append (s t : string) :
  String.length (s ++ t) = (String.length s + String.length t)%nat.
Proof.
  induction s as [|c s IH]; cbn; [reflexivity|]. rewrite IH. reflexivity.
Qed.

Lemma insertion_changes_text (before inserted after : string) :
  (0 < String.length inserted)%nat ->
  (before ++ EmptyString ++ after)%string <> (before ++ inserted ++ after)%string.
Proof.
  intros Hlen Heq. apply (f_equal String.length) in Heq.
  rewrite !length_append in Heq. cbn in Heq. lia.
Qed.

(** The text generated for [output_size_ = 2] differs from the text for any
    other [output_size_], all else equal. *)
Lemma GenerateShaderCode_output_size
    (output_size_ output_number_ : Z) (has_bias_ : bool)
    (shader : Shader.ShaderHelper) :
  output_size_ <> 2 ->
  Shader.MainFunctionBody
    (Shader.GenerateShaderCode 2 output_number_ has_bias_ shader) <>
  Shader.MainFunctionBody
    (Shader.GenerateShaderCode output_size_ output_number_ has_bias_ shader).
Proof.
  intros Hsize. unfold Shader.GenerateShaderCode.
  cbn [Shader.MainFunctionBody].
  rewrite Z.eqb_refl. destruct (Z.eqb_spec output_size_ 2) as [|_];
    [contradiction|].
  cbn [negb]. apply insertion_changes_text.
  rewrite length_append. cbn. lia.
Qed.

(** C4: the claim does not hold of the code.  A = [8; 1] and A = [4; 1],
    each with B = [1; 1], both select Native with the same cache hint
    ("1", "1", "4"), the same inputs, component widths and bias flag, and
    their programs differ in [output_size_] only (2 and 1), that is in the
    concrete value of M; yet with one and the same shader helper the
    generated main function bodies differ, because the source tests
    [output_size_ != 2] before it emits the line for [batch_indices]. *)
Theorem same_cache_hint_different_source :
  let p1 := program_of (frame (quiet_context [[8; 1]; [1; 1]])
              {| M := 8; N := 1; K := 1; OutputShape := [8; 1] |}) in
  let p2 := program_of (frame (quiet_context [[4; 1]; [1; 1]])
              {| M := 4; N := 1; K := 1; OutputShape := [4; 1] |}) in
  submitted (snd (run (quiet_context [[8; 1]; [1; 1]]))) = [p1] /\
  submitted (snd (run (quiet_context [[4; 1]; [1; 1]]))) = [p2] /\
  class p1 = MatMulNativeProgram 2 4 false /\
  class p2 = MatMulNativeProgram 1 4 false /\
  cache_hint p1 = cache_hint p2 /\
  inputs p1 = inputs p2 /\
  map component (outputs p1) = map component (outputs p2) /\
  map dependency (outputs p1) = map dependency (outputs p2) /\
  map NumDimensions (indices p1) = map NumDimensions (indices p2) /\
  forall shader : Shader.ShaderHelper,
    option_map Shader.MainFunctionBody (Shader.generate p1 shader) <>
    option_map Shader.MainFunctionBody (Shader.generate p2 shader).
Proof.
  cbv zeta.
  repeat (split; [vm_compute; reflexivity|]).
  intros shader.
  change (Some (Shader.MainFunctionBody
                  (Shader.GenerateShaderCode 2 4 false shader)) <>
          Some (Shader.MainFunctionBody
                  (Shader.GenerateShaderCode 1 4 false shader))).
  intros Heq.
  apply (GenerateShaderCode_output_size 1 4 false shader); [lia|].
  exact (f_equal (fun o => match o with Some text => text | None => EmptyString end)
                 Heq).
Qed.

(** ** The overlap test on binary32 *)

Module nms_facts.

Import nms_helpers.

Lemma ltb_nan_r (x : F32.float) : F32.ltb x S754_nan = false.
Proof. destruct x; reflexivity. Qed.

Lemma div_nan (x y : F32.float) :
  x = S754_nan \/ y = S754_nan -> F32.div x y = S754_nan.
Proof. intros [-> | ->]; [|destruct x]; reflexivity. Qed.

Lemma sub_nan (x y : F32.float) :
  x = S754_nan \/ y = S754_nan -> F32.sub x y = S754_nan.
Proof. intros [-> | ->]; [|destruct x]; reflexivity. Qed.

Lemma add_nan (x y : F32.float) :
  x = S754_nan \/ y = S754_nan -> F32.add x y = S754_nan.
Proof. intros [-> | ->]; [|destruct x]; reflexivity. Qed.

(** A value that is a number and not [<= 0] is above zero. *)
Lemma positive_of_not_le (x : F32.float) :
  x <> S754_nan -> F32.leb x F32.zero = false -> F32.ltb F32.zero x = true.
Proof.
  destruct x as [s|s| |s m e]; try destruct s; cbn; congruence.
Qed.

Lemma not_nan_of_ltb (t x : F32.float) : F32.ltb t x = true -> x <> S754_nan.
Proof. intros Hlt ->. rewrite ltb_nan_r in Hlt. discriminate. Qed.

End nms_facts.

(** C10: for every pair of boxes, every center_point_box mode and every
    iou_threshold, SuppressByIOU (on [float]) returns true only when the
    intersection area, both box areas and the union area are all strictly
    positive and intersection/union exceeds iou_threshold; so when it returns
    true neither box has an area that is [<= 0]: a degenerate box is never
    suppressed and never suppresses. *)
Theorem SuppressByIOU_only_for_proper_overlap
    (boxes_data : Z -> F32.float) (box_index1 box_index2 center_point_box : Z)
    (iou_threshold : F32.float) :
  nms_helpers.SuppressByIOU boxes_data box_index1 box_index2 center_point_box
                            iou_threshold = true ->
  let c1 := nms_helpers.corners boxes_data (4 * box_index1) center_point_box in
  let c2 := nms_helpers.corners boxes_data (4 * box_index2) center_point_box in
  F32.ltb F32.zero (nms_helpers.intersection_area c1 c2) = true /\
  F32.ltb F32.zero (nms_helpers.area c1) = true /\
  F32.ltb F32.zero (nms_helpers.area c2) = true /\
  F32.ltb F32.zero (nms_helpers.union_area c1 c2) = true /\
  F32.ltb iou_threshold (nms_helpers.intersection_over_union c1 c2) = true /\
  F32.leb (nms_helpers.area c1) F32.zero = false /\
  F32.leb (nms_helpers.area c2) F32.zero = false.
Proof.
  unfold nms_helpers.SuppressByIOU. cbv zeta.
  set (c1 := nms_helpers.corners boxes_data (4 * box_index1) center_point_box).
  set (c2 := nms_helpers.corners boxes_data (4 * box_index2) center_point_box).
  cbn [nms_helpers.leb nms_helpers.gtb nms_helpers.zero
       nms_helpers.float_Scalar].
  destruct (F32.leb (nms_helpers.intersection_area c1 c2) F32.zero) eqn:Hi;
    [discriminate|].
  destruct (F32.leb (nms_helpers.area c1) F32.zero) eqn:H1; [discriminate|].
  destruct (F32.leb (nms_helpers.area c2) F32.zero) eqn:H2; [discriminate|].
  destruct (F32.leb (nms_helpers.union_area c1 c2) F32.zero) eqn:Hu;
    [discriminate|].
  cbn [orb]. intros Hgt.
  pose proof (nms_facts.not_nan_of_ltb _ _ Hgt) as Hiou.
  assert (Hin : nms_helpers.intersection_area c1 c2 <> S754_nan).
  { intros Hn. apply Hiou. apply nms_facts.div_nan. left. exact Hn. }
  assert (Hun : nms_helpers.union_area c1 c2 <> S754_nan).
  { intros Hn. apply Hiou. apply nms_facts.div_nan. right. exact Hn. }
  assert (Hsum : nms_helpers.add (nms_helpers.area c1) (nms_helpers.area c2)
                 <> S754_nan).
  { intros Hn. apply Hun. apply nms_facts.sub_nan. left. exact Hn. }
  assert (Ha1 : nms_helpers.area c1 <> S754_nan).
  { intros Hn. apply Hsum. apply nms_facts.add_nan. left. exact Hn. }
  assert (Ha2 : nms_helpers.area c2 <> S754_nan).
  { intros Hn. apply Hsum. apply nms_facts.add_nan. right. exact Hn. }
  repeat split;
    solve [ apply nms_facts.positive_of_not_le; assumption
          | assumption
          | reflexivity ].
Qed.

Lemma SuppressByIOU_only_for_proper_overlap_witness :
  let boxes_data := nms_helpers.memory_of [0; 0; 2; 2; 0; 0; 2; 3] in
  let iou_threshold := F32.div (F32.of_Z 1) (F32.of_Z 2) in
  let c1 := nms_helpers.corners boxes_data (4 * 0) 0 in
  let c2 := nms_helpers.corners boxes_data (4 * 1) 0 in
  nms_helpers.SuppressByIOU boxes_data 0 1 0 iou_threshold = true /\
  F32.ltb F32.zero (nms_helpers.intersection_area c1 c2) = true /\
  F32.ltb F32.zero (nms_helpers.area c1) = true /\
  F32.ltb F32.zero (nms_helpers.area c2) = true /\
  F32.ltb F32.zero (nms_helpers.union_area c1 c2) = true /\
  F32.ltb iou_threshold (nms_helpers.intersection_over_union c1 c2) = true /\
  F32.leb (nms_helpers.area c1) F32.zero = false /\
  F32.leb (nms_helpers.area c2) F32.zero = false.
Proof.
  intros boxes_data iou_threshold c1 c2. split.
  - vm_compute. reflexivity.
  - apply (SuppressByIOU_only_for_proper_overlap boxes_data 0 1 0
             iou_threshold).
    vm_compute. reflexivity.
Defined.

(** * Further properties *)

(** ** Shapes and sizes *)

Lemma Size_app (s t : TensorShape) : Size (s ++ t) = Size s * Size t.
Proof.
  unfold Size. induction s as [|d s IH]; cbn [app fold_right].
  - lia.
  - rewrite IH. lia.
Qed.

Lemma Size_rev (s : TensorShape) : Size (rev s) = Size s.
Proof.
  induction s as [|d s IH]; [reflexivity|].
  cbn [rev]. rewrite Size_app, IH. unfold Size. cbn. lia.
Qed.

Lemma outer_dims_of_app (outer : TensorShape) (m n : Z) :
  outer_dims_of (outer ++ [m; n]) = outer.
Proof.
  unfold outer_dims_of, NumDimensions, Slice. rewrite length_app.
  cbn [List.length skipn].
  replace (List.length outer + 2 - 2 - 0)%nat with (List.length outer) by lia.
  destruct (Nat.ltb_spec 2 (List.length outer + 2)) as [Hlt|Hge].
  - rewrite firstn_app, Nat.sub_diag, firstn_all. cbn. apply app_nil_r.
  - destruct outer; [reflexivity|cbn in Hge; lia].
Qed.

Lemma shape_split (s : TensorShape) :
  (2 <= NumDimensions s)%nat ->
  s = firstn (NumDimensions s - 2) s
      ++ [dim s (NumDimensions s - 2); dim s (NumDimensions s - 1)].
Proof.
  unfold NumDimensions, dim. intros Hr.
  rewrite <- (firstn_skipn (List.length s - 2) s) at 1. f_equal.
  assert (Hlen : List.length (skipn (List.length s - 2) s) = 2%nat)
    by (rewrite length_skipn; lia).
  destruct (skipn (List.length s - 2) s) as [|x [|y [|z t]]] eqn:Hs;
    try discriminate.
  assert (Hx : nth (List.length s - 2) s 0 = x).
  { rewrite <- (firstn_skipn (List.length s - 2) s) at 2.
    rewrite app_nth2; rewrite length_firstn; [|lia].
    replace (List.length s - 2 - Nat.min (List.length s - 2) (List.length s))%nat
      with 0%nat by lia.
    rewrite Hs. reflexivity. }
  assert (Hy : nth (List.length s - 1) s 0 = y).
  { rewrite <- (firstn_skipn (List.length s - 2) s) at 2.
    rewrite app_nth2; rewrite length_firstn; [|lia].
    replace (List.length s - 1 - Nat.min (List.length s - 2) (List.length s))%nat
      with 1%nat by lia.
    rewrite Hs. reflexivity. }
  rewrite Hx, Hy. reflexivity.
Qed.

(** What [Compute] establishes, with the ranks and the broadcast. *)
Lemma Compute_shapes (a b : TensorShape) (helper : MatMulComputeHelper) :
  Compute a b = inl helper ->
  (2 <= NumDimensions a)%nat /\ (2 <= NumDimensions b)%nat /\
  a = Slice a 0 (NumDimensions a - 2) ++ [M helper; K helper] /\
  b = Slice b 0 (NumDimensions b - 2) ++ [K helper; N helper] /\
  exists outer,
    broadcast (Slice a 0 (NumDimensions a - 2))
              (Slice b 0 (NumDimensions b - 2)) = Some outer /\
    OutputShape helper = outer ++ [M helper; N helper].
Proof.
  unfold Compute.
  destruct (Nat.ltb_spec (NumDimensions a) 2); [discriminate|].
  destruct (Nat.ltb_spec (NumDimensions b) 2); [discriminate|].
  cbn [orb].
  destruct (Z.eqb_spec (dim b (NumDimensions b - 2)) (dim a (NumDimensions a - 1)))
    as [HK|]; [|discriminate].
  cbn [negb].
  destruct (broadcast _ _) as [outer|] eqn:Hb; [|discriminate].
  intros Hh. injection Hh as <-. cbn [M N K OutputShape].
  split; [assumption|]. split; [assumption|].
  unfold Slice. rewrite !Nat.sub_0_r. cbn [skipn].
  split; [apply shape_split; assumption|].
  split; [rewrite <- HK; apply shape_split; assumption|].
  exists outer. split; reflexivity.
Qed.

Lemma GetMaxComponents_cases (d : Z) :
  GetMaxComponents d = 4 \/ GetMaxComponents d = 2 \/ GetMaxComponents d = 1.
Proof.
  unfold GetMaxComponents.
  destruct (Z.rem d 4 =? 0); [auto|]. destruct (Z.rem d 2 =? 0); auto.
Qed.

Lemma GetMaxComponents_divides (d : Z) : (GetMaxComponents d | d).
Proof.
  unfold GetMaxComponents.
  destruct (Z.eqb_spec (Z.rem d 4) 0) as [H4|H4].
  - apply Z.rem_divide; [lia|exact H4].
  - destruct (Z.eqb_spec (Z.rem d 2) 0) as [H2|H2].
    + apply Z.rem_divide; [lia|exact H2].
    + apply Z.divide_1_l.
Qed.

(** X1: when the shapes of A and B do not resolve, ComputeInternal returns
    the helper's error and leaves the world as it found it; and a call makes
    no call at all on its collaborators (no output tensor, no program handed
    to RunProgram, no copy from the device) exactly when the shapes do not
    resolve. *)
Theorem shape_error_stops_the_call wx wy wz bts context :
  let result := ComputeInternal wx wy wz bts context initial in
  (forall code,
      Compute (Input context 0) (Input context 1) = inr code ->
      result = (Error code, initial)) /\
  (events (snd result) = [] <->
   exists code, Compute (Input context 0) (Input context 1) = inr code).
Proof.
  cbv zeta. split.
  - intros code Hc. apply ComputeInternal_rejected. exact Hc.
  - destruct (Compute (Input context 0) (Input context 1))
      as [helper|code] eqn:Hc.
    + rewrite (ComputeInternal_events wx wy wz bts context helper Hc).
      split; [cbn; discriminate|]. intros (code & Hcode). discriminate Hcode.
    + rewrite (ComputeInternal_rejected wx wy wz bts context code initial Hc).
      split; [|reflexivity]. intros _. exists code. reflexivity.
Qed.

Lemma shape_error_stops_the_call_witness :
  let context := quiet_context [[2; 3]; [4; 5]] in
  Compute (Input context 0) (Input context 1) = inr ShapeMismatch /\
  ComputeInternal 8 8 1 temp_shape_vector context initial =
    (Error ShapeMismatch, initial).
Proof.
  intros context. split.
  - reflexivity.
  - apply (proj1 (shape_error_stops_the_call 8 8 1 temp_shape_vector
                    context)).
    reflexivity.
Defined.

(** X2: on the Native path the two integer divisions that give
    [output_size] lose nothing: the quotient times output_number times
    components is the number of elements of the resolved output, the shape
    declared to the shader holds that number of elements in vectors of
    [components], and it is batch_size * M * N. *)
Theorem native_tiles_cover_the_output wx wy wz bts context helper nf :
  Compute (Input context 0) (Input context 1) = inl helper ->
  frame_of wx wy wz bts context helper = inl nf ->
  let c := nf_components nf in
  let o := nf_output_number nf in
  Z.quot (Z.quot (Size (OutputShape helper)) c) o * o * c
    = Size (OutputShape helper) /\
  Size (nf_output_shape_shader nf) * c = Size (OutputShape helper) /\
  nf_batch_size nf * M helper * N helper = Size (OutputShape helper).
Proof.
  intros Hr Hf c o. subst c o.
  destruct (Compute_shapes _ _ _ Hr) as (_ & _ & _ & _ & outer & _ & Hos).
  unfold frame_of in Hf.
  destruct ((to_uint32 (N helper) <? 8) && (to_uint32 (K helper) <? 8));
    [|discriminate].
  injection Hf as <-.
  cbn [native_frame nf_components nf_output_number nf_output_shape_shader
       nf_batch_size].
  rewrite !GetMaxComponents_to_uint32, Hos, outer_dims_of_app, Size_app.
  destruct (GetMaxComponents_divides (N helper)) as [n' Hn].
  destruct (GetMaxComponents_divides (M helper)) as [m' Hm].
  assert (Hc : GetMaxComponents (N helper) <> 0)
    by (destruct (GetMaxComponents_cases (N helper)) as [->|[->| ->]]; lia).
  assert (Ho : GetMaxComponents (M helper) <> 0)
    by (destruct (GetMaxComponents_cases (M helper)) as [->|[->| ->]]; lia).
  set (cN := GetMaxComponents (N helper)) in *.
  set (cM := GetMaxComponents (M helper)) in *.
  assert (HqN : Z.quot (N helper) cN = n') by (rewrite Hn; apply Z.quot_mul; exact Hc).
  assert (Hs : Size [M helper; N helper] = M helper * N helper)
    by (unfold Size; cbn; ring).
  assert (Hss : Size [Size outer; M helper; Z.quot (N helper) cN]
                = Size outer * M helper * n')
    by (rewrite HqN; unfold Size; cbn; ring).
  rewrite Hs, Hss. clear Hs Hss HqN.
  assert (Hq1 : Z.quot (Size outer * (M helper * N helper)) cN
                = Size outer * M helper * n').
  { rewrite Hn at 1.
    replace (Size outer * (M helper * (n' * cN)))
      with (Size outer * M helper * n' * cN) by ring.
    apply Z.quot_mul. exact Hc. }
  rewrite Hq1.
  assert (Hq2 : Z.quot (Size outer * M helper * n') cM = Size outer * m' * n').
  { rewrite Hm at 1.
    replace (Size outer * (m' * cM) * n') with (Size outer * m' * n' * cM)
      by ring.
    apply Z.quot_mul. exact Ho. }
  rewrite Hq2.
  split; [|split].
  - rewrite Hn at 1. rewrite Hm at 1. ring.
  - rewrite Hn at 1. ring.
  - ring.
Qed.

Lemma native_tiles_cover_the_output_witness :
  let context := quiet_context [[5; 2; 3]; [3; 4]] in
  let helper := {| M := 2; N := 4; K := 3; OutputShape := [5; 2; 4] |} in
  let nf := native_frame context helper 2 4 3 in
  let c := nf_components nf in
  let o := nf_output_number nf in
  (Compute (Input context 0) (Input context 1) = inl helper /\
   frame_of 8 8 1 temp_shape_vector context helper = inl nf) /\
  Z.quot (Z.quot (Size (OutputShape helper)) c) o * o * c
    = Size (OutputShape helper) /\
  Size (nf_output_shape_shader nf) * c = Size (OutputShape helper) /\
  nf_batch_size nf * M helper * N helper = Size (OutputShape helper).
Proof.
  intros context helper nf c o. split.
  - split; reflexivity.
  - apply (native_tiles_cover_the_output 8 8 1 temp_shape_vector context
             helper nf); reflexivity.
Defined.

Lemma Size2 (x y : Z) : Size [x; y] = x * y.
Proof. unfold Size. cbn. ring. Qed.

Lemma Size3 (x y z : Z) : Size [x; y; z] = x * y * z.
Proof. unfold Size. cbn. ring. Qed.

Lemma quot_components (n : Z) (vec4 : bool) :
  (vec4 = true -> Z.rem n 4 = 0) ->
  Z.quot n (if vec4 then 4 else 1) * (if vec4 then 4 else 1) = n.
Proof.
  intros Hv. destruct vec4.
  - specialize (Hv eq_refl). pose proof (Z.quot_rem' n 4). lia.
  - rewrite Z.quot_1_r. lia.
Qed.

(** X3: on the Packed path, when the row count (M, or batchA under the
    rewrite) and N fit in int32, the shape declared to the shader for the
    output is [batch_size; rows; N / components] and holds, in vectors of
    [components], exactly the elements of the shape the path works on: the
    division by components is exact because components is 4 only when N is
    a multiple of 4. *)
Theorem packed_shader_shape_covers wx wy wz bts context helper pf :
  Compute (Input context 0) (Input context 1) = inl helper ->
  frame_of wx wy wz bts context helper = inr pf ->
  let a := Input context 0 in
  let batchA := SizeToDimension a (NumDimensions a - 2) in
  let rows := if pf_rewritten pf then batchA else M helper in
  - 2 ^ 31 <= rows < 2 ^ 31 ->
  - 2 ^ 31 <= N helper < 2 ^ 31 ->
  pf_output_shape_temp pf =
    [pf_batch_size pf; rows; Z.quot (N helper) (pf_components pf)] /\
  Size (pf_output_shape_temp pf) * pf_components pf =
    Size (pf_output_shape pf).
Proof.
  intros Hr Hf a batchA rows Hrows HN.
  destruct (Compute_resolved _ _ _ Hr) as (HM & HK & HNb & Hm).
  destruct (Compute_shapes _ _ _ Hr) as (_ & _ & _ & _ & outer & _ & Hos).
  unfold frame_of in Hf.
  destruct ((to_uint32 (N helper) <? 8) && (to_uint32 (K helper) <? 8));
    [discriminate|].
  injection Hf as <-. subst rows batchA a.
  cbn [packed_frame pf_rewritten pf_output_shape_temp pf_components
       pf_output_shape pf_batch_size] in *.
  rewrite Hm in *.
  set (rewritten := negb (_ =? 1) && (M helper =? 1) && _) in *.
  clearbody rewritten.
  destruct rewritten.
  - cbn [dim NumDimensions List.length Nat.sub nth] in *.
    rewrite (to_int32_small _ Hrows), (to_int32_small _ HN).
    split; [reflexivity|].
    set (vec4 := (Z.rem _ 4 =? 0) && (Z.rem (N helper) 4 =? 0)).
    assert (Hv : vec4 = true -> Z.rem (N helper) 4 = 0).
    { unfold vec4. rewrite andb_true_iff, !Z.eqb_eq. tauto. }
    pose proof (quot_components (N helper) vec4 Hv) as Hq.
    change (outer_dims_of [1; SizeToDimension (Input context 0)
                                (NumDimensions (Input context 0) - 2);
                           N helper]) with [1].
    rewrite !Size3. change (Size [1]) with 1.
    set (q := Z.quot (N helper) (if vec4 then 4 else 1)) in *.
    rewrite <- Hq at 1. ring.
  - rewrite <- HM, <- HNb in *.
    rewrite (to_int32_small _ Hrows), (to_int32_small _ HN).
    split; [reflexivity|].
    set (vec4 := (Z.rem _ 4 =? 0) && (Z.rem (N helper) 4 =? 0)).
    assert (Hv : vec4 = true -> Z.rem (N helper) 4 = 0).
    { unfold vec4. rewrite andb_true_iff, !Z.eqb_eq. tauto. }
    pose proof (quot_components (N helper) vec4 Hv) as Hq.
    rewrite Hos, outer_dims_of_app, Size_app, Size3, Size2.
    set (q := Z.quot (N helper) (if vec4 then 4 else 1)) in *.
    rewrite <- Hq at 1. ring.
Qed.

Lemma packed_shader_shape_covers_witness :
  let context := quiet_context [[16; 1; 8]; [8; 8]] in
  let helper := {| M := 1; N := 8; K := 8; OutputShape := [16; 1; 8] |} in
  let pf := packed_frame 8 8 1 temp_shape_vector context helper in
  let a := Input context 0 in
  let batchA := SizeToDimension a (NumDimensions a - 2) in
  let rows := if pf_rewritten pf then batchA else M helper in
  (Compute (Input context 0) (Input context 1) = inl helper /\
   frame_of 8 8 1 temp_shape_vector context helper = inr pf /\
   - 2 ^ 31 <= rows < 2 ^ 31 /\
   - 2 ^ 31 <= N helper < 2 ^ 31) /\
  pf_output_shape_temp pf =
    [pf_batch_size pf; rows; Z.quot (N helper) (pf_components pf)] /\
  Size (pf_output_shape_temp pf) * pf_components pf =
    Size (pf_output_shape pf).
Proof.
  intros context helper pf a batchA rows.
  assert (Hrows : - 2 ^ 31 <= rows < 2 ^ 31)
    by (split; [apply Z.leb_le|apply Z.ltb_lt]; reflexivity).
  assert (HN : - 2 ^ 31 <= N helper < 2 ^ 31)
    by (split; [apply Z.leb_le|apply Z.ltb_lt]; reflexivity).
  split.
  - repeat split; try reflexivity; try apply Hrows; apply HN.
  - apply (packed_shader_shape_covers 8 8 1 temp_shape_vector context helper
             pf); [reflexivity|reflexivity|exact Hrows|exact HN].
Defined.

Lemma Size_nonneg (s : TensorShape) :
  Forall (fun d => 0 <= d) s -> 0 <= Size s.
Proof.
  induction 1 as [|d s Hd _ IH]; unfold Size in *; cbn [fold_right]; nia.
Qed.

Lemma Size_one_all_ones (s : TensorShape) :
  Forall (fun d => 0 <= d) s -> Size s = 1 -> Forall (fun d => d = 1) s.
Proof.
  induction 1 as [|d s Hd Hs IH]; intros Hsize; [constructor|].
  pose proof (Size_nonneg s Hs) as Hn.
  unfold Size in *. cbn [fold_right] in Hsize.
  assert (d = 1 /\ fold_right Z.mul 1 s = 1) as [-> Hrest] by (apply Z.eq_mul_1_nonneg; assumption).
  constructor; [reflexivity|]. apply IH. exact Hrest.
Qed.

Lemma Size_all_ones (ones : list Z) :
  Forall (fun d => d = 1) ones -> Size ones = 1.
Proof.
  induction 1 as [|d s Hd _ IH]; [reflexivity|].
  unfold Size in *. cbn [fold_right]. rewrite IH, Hd. reflexivity.
Qed.

Lemma broadcast_rev_ones (a ones r : list Z) :
  Forall (fun d => d = 1) ones ->
  broadcast_rev a ones = Some r -> Size r = Size a.
Proof.
  revert a r. induction ones as [|y ones IH]; intros a r Hones Hb.
  - destruct a; cbn in Hb; injection Hb as <-; reflexivity.
  - destruct a as [|x a].
    + cbn in Hb. injection Hb as <-. apply Size_all_ones. exact Hones.
    + inversion_clear Hones as [|? ? Hy Hrest]. subst y.
      cbn [broadcast_rev] in Hb.
      destruct (broadcast_rev a ones) as [r'|] eqn:Hr'; [|discriminate].
      specialize (IH a r' Hrest Hr').
      assert (r = x :: r') as ->.
      { destruct (Z.eqb_spec x 1) as [->|Hx].
        - injection Hb as <-. reflexivity.
        - change (1 =? 1) with true in Hb. injection Hb as <-. reflexivity. }
      unfold Size in *. cbn [fold_right]. rewrite IH. reflexivity.
Qed.

Lemma broadcast_ones (a ones outer : list Z) :
  Forall (fun d => d = 1) ones ->
  broadcast a ones = Some outer -> Size outer = Size a.
Proof.
  unfold broadcast. intros Hones Hb.
  destruct (broadcast_rev (rev a) (rev ones)) as [r|] eqn:Hr; [|discriminate].
  cbn in Hb. injection Hb as <-.
  rewrite Size_rev, <- (Size_rev a).
  apply (broadcast_rev_ones (rev a) (rev ones) r); [|exact Hr].
  apply Forall_rev. exact Hones.
Qed.

(** X4: the batched-vector-times-matrix rewrite is a pure
    reinterpretation: when it applies and the dimensions of B are not
    negative, the rewritten shapes of A, B and the output have exactly as
    many elements as A, B and the resolved output shape. *)
Theorem rewrite_keeps_element_counts wx wy wz bts context helper pf :
  Compute (Input context 0) (Input context 1) = inl helper ->
  frame_of wx wy wz bts context helper = inr pf ->
  pf_rewritten pf = true ->
  Forall (fun d => 0 <= d) (Input context 1) ->
  Size (pf_a_shape pf) = Size (Input context 0) /\
  Size (pf_b_shape pf) = Size (Input context 1) /\
  Size (pf_output_shape pf) = Size (OutputShape helper).
Proof.
  intros Hr Hf Hrw Hnonneg.
  destruct (Compute_resolved _ _ _ Hr) as (_ & _ & _ & Hm).
  destruct (Compute_shapes _ _ _ Hr)
    as (_ & _ & Ha & Hb & outer & Hbc & Hos).
  unfold frame_of in Hf.
  destruct ((to_uint32 (N helper) <? 8) && (to_uint32 (K helper) <? 8));
    [discriminate|].
  injection Hf as <-.
  cbn [packed_frame pf_rewritten pf_a_shape pf_b_shape pf_output_shape] in *.
  rewrite Hm in *. rewrite Hrw.
  apply andb_true_iff in Hrw as [Hrw HbB].
  apply andb_true_iff in Hrw as [_ HM1].
  apply Z.eqb_eq in HbB, HM1.
  unfold SizeToDimension in *.
  unfold Slice in Ha, Hb, Hbc.
  repeat rewrite Nat.sub_0_r in Ha. repeat rewrite Nat.sub_0_r in Hb.
  repeat rewrite Nat.sub_0_r in Hbc.
  cbn [skipn] in Ha, Hb, Hbc.
  set (outer_a := firstn (NumDimensions (Input context 0) - 2)
                         (Input context 0)) in *.
  set (outer_b := firstn (NumDimensions (Input context 1) - 2)
                         (Input context 1)) in *.
  assert (Hones : Forall (fun d => d = 1) outer_b).
  { apply Size_one_all_ones; [|exact HbB].
    unfold outer_b. apply Forall_forall. intros d Hd.
    apply (proj1 (Forall_forall _ _) Hnonneg).
    rewrite <- (firstn_skipn (NumDimensions (Input context 1) - 2)).
    apply in_or_app. left. exact Hd. }
  pose proof (broadcast_ones outer_a outer_b outer Hones Hbc) as Houter.
  rewrite !Size3.
  split; [|split].
  - rewrite Ha at 1. rewrite Size_app, Size2, HM1. ring.
  - rewrite Hb at 1. rewrite Size_app, Size2, HbB. ring.
  - rewrite Hos, Size_app, Size2, HM1, Houter. ring.
Qed.

Lemma rewrite_keeps_element_counts_witness :
  let context := quiet_context [[16; 1; 8]; [1; 8; 8]] in
  let helper := {| M := 1; N := 8; K := 8; OutputShape := [16; 1; 8] |} in
  let pf := packed_frame 8 8 1 temp_shape_vector context helper in
  (Compute (Input context 0) (Input context 1) = inl helper /\
   frame_of 8 8 1 temp_shape_vector context helper = inr pf /\
   pf_rewritten pf = true /\
   Forall (fun d => 0 <= d) (Input context 1)) /\
  Size (pf_a_shape pf) = Size (Input context 0) /\
  Size (pf_b_shape pf) = Size (Input context 1) /\
  Size (pf_output_shape pf) = Size (OutputShape helper).
Proof.
  intros context helper pf.
  assert (Hnonneg : Forall (fun d => 0 <= d) (Input context 1))
    by (repeat constructor; apply Z.leb_le; reflexivity).
  split.
  - repeat split; try reflexivity. exact Hnonneg.
  - apply (rewrite_keeps_element_counts 8 8 1 temp_shape_vector context
             helper pf); [reflexivity|reflexivity|reflexivity|exact Hnonneg].
Defined.

(** ** The cache hint and the generated source *)

Lemma to_string_components (x y : Z) :
  GetMaxComponents x <> GetMaxComponents y ->
  to_string (GetMaxComponents x) <> to_string (GetMaxComponents y).
Proof.
  destruct (GetMaxComponents_cases x) as [-> | [-> | ->]];
    destruct (GetMaxComponents_cases y) as [-> | [-> | ->]];
    intros Hne; try (exfalso; apply Hne; reflexivity);
    vm_compute; discriminate.
Qed.

Lemma to_string_components_inj (x y : Z) :
  to_string (GetMaxComponents x) = to_string (GetMaxComponents y) ->
  GetMaxComponents x = GetMaxComponents y.
Proof.
  intros Heq.
  destruct (Z.eq_dec (GetMaxComponents x) (GetMaxComponents y)) as [|Hne];
    [assumption|].
  exfalso. exact (to_string_components x y Hne Heq).
Qed.

(** X7: two programs built by ComputeInternal that carry the same cache
    hint are of the same strategy and agree on every parameter in
    [kernel_parameters]: the component counts of A, B and the output, and
    output_number (Native) or elements-per-thread and the vec4 flag
    (Packed). *)
Theorem cache_hint_determines_kernel_parameters
    wx wy wz bts context1 helper1 context2 helper2 :
  let p1 := program_of (frame_of wx wy wz bts context1 helper1) in
  let p2 := program_of (frame_of wx wy wz bts context2 helper2) in
  cache_hint p1 = cache_hint p2 ->
  strategy_of p1 = strategy_of p2 /\
  kernel_parameters p1 = kernel_parameters p2.
Proof.
  cbv zeta. unfold frame_of.
  destruct ((to_uint32 (N helper1) <? 8) && (to_uint32 (K helper1) <? 8));
    destruct ((to_uint32 (N helper2) <? 8) && (to_uint32 (K helper2) <? 8));
    cbn [program_of native_frame packed_frame nf_program pf_program
         cache_hint strategy_of class].
  - intros Hh. injection Hh as Hc Ha Ho.
    apply to_string_components_inj in Hc, Ha, Ho.
    split; [reflexivity|].
    unfold kernel_parameters.
    cbn [inputs outputs class app firstn map component].
    rewrite Hc, Ha, Ho. reflexivity.
  - discriminate.
  - discriminate.
  - set (v1 := (Z.rem _ 4 =? 0) && (Z.rem _ 4 =? 0)).
    set (v2 := (Z.rem _ 4 =? 0) && (Z.rem _ 4 =? 0)).
    set (e1 := if _ <=? 8 then [4; 1; 1] else [4; 4; 1]).
    set (e2 := if _ <=? 8 then [4; 1; 1] else [4; 4; 1]).
    intros Hh. split; [reflexivity|].
    unfold kernel_parameters.
    cbn [inputs outputs class app firstn map component].
    assert (He : e1 = e2 /\ v1 = v2).
    { clearbody v1 v2. subst e1 e2.
      destruct (_ <=? 8); destruct (_ <=? 8); destruct v1; destruct v2;
        try (split; reflexivity); vm_compute in Hh; discriminate. }
    destruct He as [-> ->]. reflexivity.
Qed.

Lemma cache_hint_determines_kernel_parameters_witness :
  let p1 := program_of (frame (quiet_context [[8; 1]; [1; 1]])
              {| M := 8; N := 1; K := 1; OutputShape := [8; 1] |}) in
  let p2 := program_of (frame (quiet_context [[3; 12; 5]; [5; 3]])
              {| M := 12; N := 3; K := 5; OutputShape := [3; 12; 3] |}) in
  cache_hint p1 = cache_hint p2 /\
  strategy_of p1 = strategy_of p2 /\
  kernel_parameters p1 = kernel_parameters p2.
Proof.
  intros p1 p2. split.
  - reflexivity.
  - apply (cache_hint_determines_kernel_parameters 8 8 1 temp_shape_vector
             (quiet_context [[8; 1]; [1; 1]])
             {| M := 8; N := 1; K := 1; OutputShape := [8; 1] |}
             (quiet_context [[3; 12; 5]; [5; 3]])
             {| M := 12; N := 3; K := 5; OutputShape := [3; 12; 3] |}).
    reflexivity.
Defined.

Lemma GenerateShaderCode_output_size_test
    (size1 size2 output_number_ : Z) (has_bias_ : bool)
    (shader : Shader.ShaderHelper) :
  (size1 =? 2) = (size2 =? 2) ->
  Shader.GenerateShaderCode size1 output_number_ has_bias_ shader =
  Shader.GenerateShaderCode size2 output_number_ has_bias_ shader.
Proof.
  intros Htest. unfold Shader.GenerateShaderCode. rewrite Htest. reflexivity.
Qed.

(** X8: two Native programs with the same cache hint and the same bias
    flag, whose [output_size_] are both 2 or both different from 2, generate
    the same shader code from one and the same shader helper, whatever
    their concrete M, N, K and batch sizes. *)
Theorem same_hint_same_native_source
    wx wy wz bts context1 helper1 nf1 context2 helper2 nf2
    (shader : Shader.ShaderHelper) :
  frame_of wx wy wz bts context1 helper1 = inl nf1 ->
  frame_of wx wy wz bts context2 helper2 = inl nf2 ->
  cache_hint (nf_program nf1) = cache_hint (nf_program nf2) ->
  bias_flag (nf_program nf1) = bias_flag (nf_program nf2) ->
  (nf_output_size nf1 = 2 <-> nf_output_size nf2 = 2) ->
  Shader.generate (nf_program nf1) shader =
  Shader.generate (nf_program nf2) shader.
Proof.
  unfold frame_of.
  destruct ((to_uint32 (N helper1) <? 8) && (to_uint32 (K helper1) <? 8));
    [|discriminate].
  destruct ((to_uint32 (N helper2) <? 8) && (to_uint32 (K helper2) <? 8));
    [|discriminate].
  intros H1 H2. injection H1 as <-. injection H2 as <-.
  cbn [native_frame nf_program nf_output_size cache_hint bias_flag class].
  unfold Shader.generate. cbn [class].
  intros Hh Hb Hsize. injection Hh as _ _ Ho.
  apply to_string_components_inj in Ho. rewrite Ho in Hsize |- *. rewrite Hb.
  f_equal.
  apply GenerateShaderCode_output_size_test.
  match goal with
  | |- (?s1 =? 2) = (?s2 =? 2) =>
      destruct (Z.eqb_spec s1 2); destruct (Z.eqb_spec s2 2);
      try reflexivity; exfalso; tauto
  end.
Qed.

Lemma same_hint_same_native_source_witness :
  let context1 := quiet_context [[4; 1]; [1; 1]] in
  let helper1 := {| M := 4; N := 1; K := 1; OutputShape := [4; 1] |} in
  let nf1 := native_frame context1 helper1 4 1 1 in
  let context2 := quiet_context [[3; 12; 5]; [5; 3]] in
  let helper2 := {| M := 12; N := 3; K := 5; OutputShape := [3; 12; 3] |} in
  let nf2 := native_frame context2 helper2 12 3 5 in
  (frame_of 8 8 1 temp_shape_vector context1 helper1 = inl nf1 /\
   frame_of 8 8 1 temp_shape_vector context2 helper2 = inl nf2 /\
   cache_hint (nf_program nf1) = cache_hint (nf_program nf2) /\
   bias_flag (nf_program nf1) = bias_flag (nf_program nf2) /\
   (nf_output_size nf1 = 2 <-> nf_output_size nf2 = 2)) /\
  Shader.generate (nf_program nf1) plain_shader =
  Shader.generate (nf_program nf2) plain_shader.
Proof.
  intros context1 helper1 nf1 context2 helper2 nf2.
  assert (Hsize : nf_output_size nf1 = 2 <-> nf_output_size nf2 = 2)
    by (split; intros Heq; vm_compute in Heq; discriminate Heq).
  split.
  - repeat split; try reflexivity; apply Hsize.
  - apply (same_hint_same_native_source 8 8 1 temp_shape_vector
             context1 helper1 nf1 context2 helper2 nf2 plain_shader);
      [reflexivity|reflexivity|reflexivity|reflexivity|exact Hsize].
Defined.

(** ** Exact group counts through [float] *)

Lemma digits2_pos_iter_xO (p : positive) (k : positive) :
  digits2_pos (Pos.iter xO p k) = (digits2_pos p + k)%positive.
Proof.
  revert p. induction k using Pos.peano_ind; intros p.
  - cbn. lia.
  - rewrite Pos.iter_succ. cbn [digits2_pos]. rewrite IHk. lia.
Qed.

Lemma iter_xO_value (p k : positive) :
  Zpos (Pos.iter xO p k) = Zpos p * 2 ^ Zpos k.
Proof.
  revert p. induction k using Pos.peano_ind; intros p.
  - cbn. lia.
  - rewrite Pos.iter_succ. rewrite Pos2Z.inj_xO, IHk.
    rewrite Pos2Z.inj_succ, Z.pow_succ_r by lia. lia.
Qed.

Lemma binary_round_aux_exact (m : positive) (e : Z) :
  Zpos (digits2_pos m) = 24 -> -149 <= e <= 104 ->
  binary_round_aux 24 128 false (Zpos m) e loc_Exact = S754_finite false m e.
Proof.
  intros Hd He. unfold binary_round_aux, shr_fexp.
  cbn [Zdigits2 shr_record_of_loc]. rewrite Hd.
  assert (Hf : fexp 24 128 (24 + e) - e = 0).
  { unfold fexp, emin. lia. }
  rewrite Hf. cbn [shr shr_m loc_of_shr_record round_nearest_even Zdigits2].
  rewrite Hd, Hf. cbn [shr shr_m].
  destruct (Z.leb_spec e (128 - 24)); [reflexivity|lia].
Qed.


Lemma digits2_pos_bounds (p : positive) :
  2 ^ (Zpos (digits2_pos p) - 1) <= Zpos p < 2 ^ Zpos (digits2_pos p).
Proof.
  induction p as [p IH|p IH|]; cbn [digits2_pos].
  - rewrite Pos2Z.inj_succ, (Pos2Z.inj_xI p).
    replace (Z.succ (Zpos (digits2_pos p)) - 1)
      with (Z.succ (Zpos (digits2_pos p) - 1)) by lia.
    rewrite !Z.pow_succ_r by lia.
    revert IH. generalize (2 ^ (Zpos (digits2_pos p) - 1)) (2 ^ Zpos (digits2_pos p)). intros; lia.
  - rewrite Pos2Z.inj_succ, (Pos2Z.inj_xO p).
    replace (Z.succ (Zpos (digits2_pos p)) - 1)
      with (Z.succ (Zpos (digits2_pos p) - 1)) by lia.
    rewrite !Z.pow_succ_r by lia.
    revert IH. generalize (2 ^ (Zpos (digits2_pos p) - 1)) (2 ^ Zpos (digits2_pos p)). intros; lia.
  - cbn. lia.
Qed.

Lemma digits2_pos_small (p : positive) :
  Zpos p < 2 ^ 24 -> Zpos (digits2_pos p) <= 24.
Proof.
  intros Hp. destruct (Z.le_gt_cases (Zpos (digits2_pos p)) 24) as [|Hgt];
    [assumption|exfalso].
  pose proof (digits2_pos_bounds p) as [Hlo _].
  assert (2 ^ 24 <= 2 ^ (Zpos (digits2_pos p) - 1))
    by (apply Z.pow_le_mono_r; lia).
  lia.
Qed.

Lemma of_Z_small (x : Z) :
  0 < x < 2 ^ 24 ->
  exists m e, F32.of_Z x = S754_finite false m e /\
              Zpos (digits2_pos m) = 24 /\ -23 <= e <= 0 /\
              Zpos m = x * 2 ^ (- e).
Proof.
  intros Hx. destruct x as [|p|p]; try lia.
  pose proof (digits2_pos_small p (proj2 Hx)) as Hd.
  unfold F32.of_Z, F32.prec, F32.emax, binary_normalize, binary_round.
  assert (Hf : fexp 24 128 (Zpos (digits2_pos p) + 0) = Zpos (digits2_pos p) - 24).
  { unfold fexp, emin. lia. }
  rewrite Hf. unfold shl_align.
  destruct (Zpos (digits2_pos p) - 24 - 0) as [|k|k] eqn:Hk; try lia.
  - exists p, 0. split; [|split; [|split]]; try lia.
    apply binary_round_aux_exact; lia.
  - exists (Pos.iter xO p k), (Zpos (digits2_pos p) - 24).
    assert (Hdk : Zpos (digits2_pos (Pos.iter xO p k)) = 24).
    { rewrite digits2_pos_iter_xO. lia. }
    split; [|split; [|split]]; try lia.
    + apply binary_round_aux_exact; lia.
    + rewrite iter_xO_value. f_equal. f_equal. lia.
Qed.


Lemma binary_round_aux_even (m : positive) (e : Z) :
  Zpos (digits2_pos m) = 24 -> -150 <= e <= 103 ->
  binary_round_aux 24 128 false (Zpos m~0) e loc_Exact =
  S754_finite false m (e + 1).
Proof.
  intros Hd He. unfold binary_round_aux, shr_fexp.
  cbn [Zdigits2 digits2_pos shr_record_of_loc].
  rewrite Pos2Z.inj_succ, Hd.
  assert (Hf : fexp 24 128 (Z.succ 24 + e) - e = 1).
  { unfold fexp, emin. lia. }
  rewrite Hf.
  cbn [shr iter_pos shr_1 shr_m loc_of_shr_record round_nearest_even orb
       Zdigits2].
  rewrite Hd.
  assert (Hf' : fexp 24 128 (24 + (e + 1)) - (e + 1) = 0).
  { unfold fexp, emin. lia. }
  rewrite Hf'. cbn [shr shr_m].
  destruct (Z.leb_spec (e + 1) (128 - 24)); [reflexivity|lia].
Qed.

Lemma of_Z_pow2 (k : Z) :
  0 <= k <= 23 -> F32.of_Z (2 ^ k) = S754_finite false 8388608 (k - 23).
Proof.
  intros Hk.
  assert (Hlt : 0 < 2 ^ k < 2 ^ 24).
  { split; [apply Z.pow_pos_nonneg; lia|apply Z.pow_lt_mono_r; lia]. }
  destruct (of_Z_small (2 ^ k) Hlt) as (m & e & Hof & Hd & He & Hm).
  rewrite Hof.
  pose proof (digits2_pos_bounds m) as [Hlo Hhi]. rewrite Hd in Hlo, Hhi.
  rewrite <- Z.pow_add_r in Hm by lia. rewrite Hm in Hlo, Hhi.
  apply Z.pow_le_mono_r_iff in Hlo; [|lia|lia].
  apply Z.pow_lt_mono_r_iff in Hhi; [|lia|lia].
  assert (He' : e = k - 23) by lia. subst e.
  replace (k + - (k - 23)) with 23 in Hm by lia.
  change (2 ^ 23) with (Zpos 8388608) in Hm. injection Hm as ->.
  reflexivity.
Qed.

Lemma div_pow2 (m : positive) (e k : Z) :
  Zpos (digits2_pos m) = 24 -> -100 <= e <= 0 -> 0 <= k <= 23 ->
  F32.div (S754_finite false m e) (F32.of_Z (2 ^ k)) =
  S754_finite false m (e - k).
Proof.
  intros Hd He Hk. rewrite of_Z_pow2 by exact Hk.
  unfold F32.div, F32.prec, F32.emax, SFdiv, SFdiv_core_binary.
  cbn [Zdigits2 xorb]. rewrite Hd.
  change (Z.pos (digits2_pos 8388608)) with 24.
  assert (Hmin : Z.min (fexp 24 128 (24 + e - (24 + (k - 23)))) (e - (k - 23))
                 = e - k - 1).
  { unfold fexp, emin. lia. }
  rewrite Hmin. replace (e - (k - 23) - (e - k - 1)) with 24 by lia.
  cbv iota. rewrite Z.shiftl_mul_pow2 by lia.
  assert (Hq : Z.div_eucl (Zpos m * 2 ^ 24) 8388608 = (Zpos m~0, 0)).
  { pose proof (Z_div_mod (Zpos m * 2 ^ 24) 8388608 ltac:(lia)) as Hdm.
    destruct (Z.div_eucl (Zpos m * 2 ^ 24) 8388608) as [q r].
    change (2 ^ 24) with 16777216 in Hdm.
    rewrite (Pos2Z.inj_xO m). f_equal; lia. }
  rewrite Hq. change (new_location 8388608 0) with loc_Exact.
  rewrite binary_round_aux_even by lia. f_equal. lia.
Qed.

Lemma trunc_of_scaled (m : positive) (e q : Z) :
  e <= 0 -> Zpos m = q * 2 ^ (- e) ->
  F32.trunc (S754_finite false m e) = Some q.
Proof.
  intros He Hm. unfold F32.trunc. cbn [cond_Zopp]. f_equal.
  destruct (Z.leb_spec 0 e).
  - assert (e = 0) by lia. subst e. cbn in Hm. cbn. lia.
  - rewrite Hm. apply Z.quot_mul. apply Z.pow_nonzero; lia.
Qed.

Lemma ceil_div_bounds (x d : Z) :
  0 < x -> 0 < d -> 0 < ceil_div x d <= x.
Proof.
  intros Hx Hd. unfold ceil_div. split.
  - apply Z.div_str_pos. lia.
  - apply Z.div_le_upper_bound; nia.
Qed.

(** The conversion to [uint32_t] of the ceiling of an exactly scaled
    value. *)
Lemma count_of_scaled (m : positive) (e k x : Z) :
  0 < x < 2 ^ 24 -> e <= 0 -> 0 <= k ->
  Zpos m = x * 2 ^ (- e) ->
  F32.to_uint32 (F32.ceil (S754_finite false m (e - k))) =
  Some (ceil_div x (2 ^ k)).
Proof.
  intros Hx He Hk Hm.
  assert (Hpk : 0 < 2 ^ k) by (apply Z.pow_pos_nonneg; lia).
  pose proof (ceil_div_bounds x (2 ^ k) ltac:(lia) Hpk) as Hc.
  assert (Hrange : (0 <=? ceil_div x (2 ^ k)) && (ceil_div x (2 ^ k) <? 2 ^ 32)
                   = true).
  { apply andb_true_iff. split; [apply Z.leb_le; lia|apply Z.ltb_lt].
    change (2 ^ 32) with 4294967296. change (2 ^ 24) with 16777216 in Hx. lia. }
  unfold F32.ceil. destruct (Z.leb_spec 0 (e - k)) as [Hge|Hlt].
  - assert (e = 0) by lia. assert (k = 0) by lia. subst e k.
    unfold F32.to_uint32.
    rewrite (trunc_of_scaled m (0 - 0) x) by (cbn; lia).
    unfold ceil_div in *. change (2 ^ 0) with 1 in *.
    replace (x + 1 - 1) with x in * by lia. rewrite Z.div_1_r in *.
    rewrite Hrange. reflexivity.
  - cbn [cond_Zopp].
    assert (Hq : F32.ceil_scaled (Zpos m) (e - k) = ceil_div x (2 ^ k)).
    { unfold F32.ceil_scaled, ceil_div. rewrite Hm.
      replace (- (e - k)) with (- e + k) by lia.
      rewrite Z.pow_add_r by lia.
      assert (Hp : 0 < 2 ^ (- e)) by (apply Z.pow_pos_nonneg; lia).
      rewrite <- Z.mul_opp_l, (Z.mul_comm (- x)).
      rewrite Z.div_mul_cancel_l by lia.
      generalize dependent (2 ^ k). intros d Hd _ _.
      Z.to_euclidean_division_equations. nia. }
    rewrite Hq.
    destruct (ceil_div x (2 ^ k)) as [|c|c] eqn:Hcd; try lia.
    rewrite <- Hcd in *.
    change (binary_normalize F32.prec F32.emax (ceil_div x (2 ^ k)) 0 false)
      with (F32.of_Z (ceil_div x (2 ^ k))).
    destruct (of_Z_small (ceil_div x (2 ^ k)) ltac:(lia))
      as (mq & eq & Hofq & Hdq & Heq & Hmq).
    rewrite Hofq. unfold F32.to_uint32.
    rewrite (trunc_of_scaled mq eq (ceil_div x (2 ^ k))) by (lia || assumption).
    rewrite Hrange. reflexivity.
Qed.

Lemma dispatch_count_native_exact (x : Z) :
  0 <= x < 2 ^ 24 -> dispatch_count_native x = Some (ceil_div x 64).
Proof.
  intros Hx. destruct (Z.eq_dec x 0) as [->|Hnz]; [reflexivity|].
  unfold dispatch_count_native.
  destruct (of_Z_small x ltac:(lia)) as (m & e & Hof & Hd & He & Hm).
  change 64 with (2 ^ 6) at 1.
  rewrite Hof, div_pow2 by (assumption || lia).
  apply count_of_scaled; (assumption || lia).
Qed.

Lemma dispatch_count_exact (x a b : Z) :
  0 <= x < 2 ^ 24 -> 0 <= a <= 23 -> 0 <= b <= 23 ->
  dispatch_count x (2 ^ a) (2 ^ b) = Some (ceil_div x (2 ^ a * 2 ^ b)).
Proof.
  intros Hx Ha Hb. unfold dispatch_count.
  destruct (Z.eq_dec x 0) as [->|Hnz].
  - rewrite !of_Z_pow2 by assumption.
    change (F32.of_Z 0) with (S754_zero false).
    unfold ceil_div. rewrite <- Z.pow_add_r by lia.
    assert (Hp : 1 <= 2 ^ (a + b)) by (apply Z.pow_le_mono_r with (b := 0); lia).
    rewrite Z.div_small by lia. reflexivity.
  - destruct (of_Z_small x ltac:(lia)) as (m & e & Hof & Hd & He & Hm).
    rewrite Hof, div_pow2 by (assumption || lia).
    rewrite div_pow2 by (assumption || lia).
    replace (e - a - b) with (e - (a + b)) by lia.
    rewrite <- Z.pow_add_r by lia.
    apply count_of_scaled; (assumption || lia).
Qed.

(** X5: on the Native path, whenever [output_size] is below 2^24, the
    group count computed through [float] is the exact integer ceiling of
    output_size / 64, so that the 64-wide groups cover every work item with
    fewer than 64 to spare. *)
Theorem native_group_count_exact wx wy wz bts context helper nf :
  frame_of wx wy wz bts context helper = inl nf ->
  nf_output_size nf < 2 ^ 24 ->
  let groups := ceil_div (nf_output_size nf) 64 in
  dispatch_group_size (nf_program nf) = [Some groups] /\
  nf_output_size nf <= 64 * groups < nf_output_size nf + 64.
Proof.
  intros Hf Hsize groups. subst groups.
  unfold frame_of in Hf.
  destruct ((to_uint32 (N helper) <? 8) && (to_uint32 (K helper) <? 8));
    [|discriminate].
  injection Hf as <-.
  cbn [native_frame nf_program nf_output_size dispatch_group_size] in *.
  set (output_size := to_uint32 _) in *.
  assert (Hnonneg : 0 <= output_size).
  { unfold output_size, to_uint32. apply Z.mod_pos_bound. reflexivity. }
  rewrite dispatch_count_native_exact by lia.
  split; [reflexivity|].
  unfold ceil_div. Z.to_euclidean_division_equations. lia.
Qed.

Lemma native_group_count_exact_witness :
  let context := quiet_context [[5; 2; 3]; [3; 4]] in
  let helper := {| M := 2; N := 4; K := 3; OutputShape := [5; 2; 4] |} in
  let nf := native_frame context helper 2 4 3 in
  let groups := ceil_div (nf_output_size nf) 64 in
  (frame_of 8 8 1 temp_shape_vector context helper = inl nf /\
   nf_output_size nf < 2 ^ 24) /\
  dispatch_group_size (nf_program nf) = [Some groups] /\
  nf_output_size nf <= 64 * groups < nf_output_size nf + 64.
Proof.
  intros context helper nf groups. split.
  - split; reflexivity.
  - apply (native_group_count_exact 8 8 1 temp_shape_vector context helper
             nf); reflexivity.
Defined.


Lemma dispatch_count_by_4 (x a : Z) :
  0 <= x < 2 ^ 24 -> 0 <= a <= 23 ->
  dispatch_count x (2 ^ a) 4 = Some (ceil_div x (2 ^ a * 4)).
Proof. intros Hx Ha. apply (dispatch_count_exact x a 2); (assumption || lia). Qed.

Lemma dispatch_count_by_1 (x a : Z) :
  0 <= x < 2 ^ 24 -> 0 <= a <= 23 ->
  dispatch_count x (2 ^ a) 1 = Some (ceil_div x (2 ^ a * 1)).
Proof. intros Hx Ha. apply (dispatch_count_exact x a 0); (assumption || lia). Qed.

(** X6: on the Packed path, if the three workgroup sizes are powers of
    two (at most 2^23) and the column extent, the row extent and the batch
    size are non-negative and below 2^24, each of the three group counts
    computed through [float] is the exact integer ceiling of the extent
    divided by workgroup size times elements per thread. *)
Theorem packed_group_counts_exact (ax ay az : Z) bts context helper pf :
  0 <= ax <= 23 -> 0 <= ay <= 23 -> 0 <= az <= 23 ->
  frame_of (2 ^ ax) (2 ^ ay) (2 ^ az) bts context helper = inr pf ->
  0 <= pf_dim_b_outer pf < 2 ^ 24 ->
  0 <= pf_dim_a_outer pf < 2 ^ 24 ->
  0 <= pf_batch_size pf < 2 ^ 24 ->
  let rows_per_thread := if pf_dim_a_outer pf <=? 8 then 1 else 4 in
  dispatch_group_size (pf_program pf) =
    [Some (ceil_div (pf_dim_b_outer pf) (2 ^ ax * 4));
     Some (ceil_div (pf_dim_a_outer pf) (2 ^ ay * rows_per_thread));
     Some (ceil_div (pf_batch_size pf) (2 ^ az * 1))].
Proof.
  intros Hx Hy Hz Hf. unfold frame_of in Hf.
  destruct ((to_uint32 (N helper) <? 8) && (to_uint32 (K helper) <? 8));
    [discriminate|].
  injection Hf as <-.
  cbn [packed_frame pf_dim_b_outer pf_dim_a_outer pf_batch_size pf_program
       dispatch_group_size].
  intros Hb Ha Hbatch.
  match goal with
  | |- context [if ?d <=? 8 then [4; 1; 1] else [4; 4; 1]] =>
      destruct (d <=? 8)
  end; cbn [nth];
    rewrite ?dispatch_count_by_4, ?dispatch_count_by_1 by (assumption || lia);
    reflexivity.
Qed.

Lemma packed_group_counts_exact_witness :
  let context := quiet_context [[3; 100; 40]; [40; 70]] in
  let helper := {| M := 100; N := 70; K := 40; OutputShape := [3; 100; 70] |} in
  let pf := packed_frame (2 ^ 3) (2 ^ 3) (2 ^ 0) temp_shape_vector context
                         helper in
  let rows_per_thread := if pf_dim_a_outer pf <=? 8 then 1 else 4 in
  (0 <= 3 <= 23 /\ 0 <= 0 <= 23 /\
   frame_of (2 ^ 3) (2 ^ 3) (2 ^ 0) temp_shape_vector context helper
     = inr pf /\
   0 <= pf_dim_b_outer pf < 2 ^ 24 /\
   0 <= pf_dim_a_outer pf < 2 ^ 24 /\
   0 <= pf_batch_size pf < 2 ^ 24) /\
  dispatch_group_size (pf_program pf) =
    [Some (ceil_div (pf_dim_b_outer pf) (2 ^ 3 * 4));
     Some (ceil_div (pf_dim_a_outer pf) (2 ^ 3 * rows_per_thread));
     Some (ceil_div (pf_batch_size pf) (2 ^ 0 * 1))].
Proof.
  intros context helper pf rows_per_thread.
  assert (Hb : 0 <= pf_dim_b_outer pf < 2 ^ 24)
    by (split; [apply Z.leb_le|apply Z.ltb_lt]; reflexivity).
  assert (Ha : 0 <= pf_dim_a_outer pf < 2 ^ 24)
    by (split; [apply Z.leb_le|apply Z.ltb_lt]; reflexivity).
  assert (Hz : 0 <= pf_batch_size pf < 2 ^ 24)
    by (split; [apply Z.leb_le|apply Z.ltb_lt]; reflexivity).
  split.
  - repeat split; try reflexivity; try lia;
      try apply Hb; try apply Ha; apply Hz.
  - apply (packed_group_counts_exact 3 3 0 temp_shape_vector context helper
             pf); [lia|lia|lia|reflexivity|exact Hb|exact Ha|exact Hz].
Defined.

(** ** The order on binary32 and the overlap test *)

Ltac compare_cases :=
  repeat match goal with
         | H : context [Z.compare ?a ?b] |- _ =>
             destruct (Z.compare_spec a b); subst
         | |- context [Z.compare ?a ?b] =>
             destruct (Z.compare_spec a b); subst
         | H : context [Pos.compare_cont Eq ?a ?b] |- _ =>
             change (Pos.compare_cont Eq a b) with (Pos.compare a b) in *;
             destruct (Pos.compare_spec a b); subst
         | |- context [Pos.compare_cont Eq ?a ?b] =>
             change (Pos.compare_cont Eq a b) with (Pos.compare a b) in *;
             destruct (Pos.compare_spec a b); subst
         end;
  cbn in *; try discriminate; try reflexivity; try lia.

Lemma leb_ltb_trans (a b c : F32.float) :
  F32.leb a b = true -> F32.ltb b c = true -> F32.ltb a c = true.
Proof.
  unfold F32.leb, F32.ltb, SFleb, SFltb.
  destruct a as [sa|sa| |sa ma ea], b as [sb|sb| |sb mb eb],
           c as [sc|sc| |sc mc ec];
    try destruct sa; try destruct sb; try destruct sc;
    cbn; try discriminate; try reflexivity; intros Hab Hbc; compare_cases.
Qed.

Lemma leb_total (a b : F32.float) :
  a <> S754_nan -> b <> S754_nan -> F32.leb a b = false -> F32.leb b a = true.
Proof.
  unfold F32.leb, SFleb.
  destruct a as [sa|sa| |sa ma ea], b as [sb|sb| |sb mb eb];
    try destruct sa; try destruct sb;
    cbn; try congruence; intros _ _ Hab; compare_cases.
Qed.

Lemma MaxMin_ordered (lhs rhs : F32.float) :
  lhs <> S754_nan -> rhs <> S754_nan ->
  F32.leb (fst (nms_helpers.MaxMin lhs rhs)) (snd (nms_helpers.MaxMin lhs rhs))
    = true /\
  (nms_helpers.MaxMin lhs rhs = (lhs, rhs) \/
   nms_helpers.MaxMin lhs rhs = (rhs, lhs)).
Proof.
  intros Hl Hr. unfold nms_helpers.MaxMin.
  cbn [nms_helpers.geb nms_helpers.float_Scalar].
  destruct (F32.leb rhs lhs) eqn:Hle; cbn [fst snd].
  - split; [exact Hle|right; reflexivity].
  - split; [|left; reflexivity]. apply leb_total; assumption.
Qed.

(** X9: with center_point_box = 0 and no NaN among the four
    coordinates of a box, the corners that SuppressByIOU works on are the
    given coordinates put in order: x_min <= x_max and y_min <= y_max,
    whichever of the two diagonal corners comes first in the data. *)
Theorem corner_mode_orders_the_corners (boxes_data : Z -> F32.float) (box : Z) :
  (forall i, 0 <= i < 4 -> boxes_data (box + i) <> S754_nan) ->
  let c := nms_helpers.corners boxes_data box 0 in
  F32.leb (nms_helpers.x_min c) (nms_helpers.x_max c) = true /\
  F32.leb (nms_helpers.y_min c) (nms_helpers.y_max c) = true /\
  ((nms_helpers.x_min c, nms_helpers.x_max c)
     = (boxes_data (box + 1), boxes_data (box + 3)) \/
   (nms_helpers.x_min c, nms_helpers.x_max c)
     = (boxes_data (box + 3), boxes_data (box + 1))) /\
  ((nms_helpers.y_min c, nms_helpers.y_max c)
     = (boxes_data (box + 0), boxes_data (box + 2)) \/
   (nms_helpers.y_min c, nms_helpers.y_max c)
     = (boxes_data (box + 2), boxes_data (box + 0))).
Proof.
  intros Hnan c. subst c. unfold nms_helpers.corners.
  change (0 =? 0) with true. cbv iota.
  destruct (MaxMin_ordered (boxes_data (box + 1)) (boxes_data (box + 3))
              (Hnan 1 ltac:(lia)) (Hnan 3 ltac:(lia))) as [Hx Hxp].
  destruct (MaxMin_ordered (boxes_data (box + 0)) (boxes_data (box + 2))
              (Hnan 0 ltac:(lia)) (Hnan 2 ltac:(lia))) as [Hy Hyp].
  destruct (nms_helpers.MaxMin (boxes_data (box + 1)) (boxes_data (box + 3)))
    as [xmin xmax].
  destruct (nms_helpers.MaxMin (boxes_data (box + 0)) (boxes_data (box + 2)))
    as [ymin ymax].
  cbn [fst snd nms_helpers.x_min nms_helpers.x_max nms_helpers.y_min
       nms_helpers.y_max] in *.
  repeat split; assumption.
Qed.

Lemma corner_mode_orders_the_corners_witness :
  let boxes_data := nms_helpers.memory_of [5; 7; 1; 2] in
  let c := nms_helpers.corners boxes_data 0 0 in
  (forall i, 0 <= i < 4 -> boxes_data (0 + i) <> S754_nan) /\
  F32.leb (nms_helpers.x_min c) (nms_helpers.x_max c) = true /\
  F32.leb (nms_helpers.y_min c) (nms_helpers.y_max c) = true /\
  ((nms_helpers.x_min c, nms_helpers.x_max c)
     = (boxes_data (0 + 1), boxes_data (0 + 3)) \/
   (nms_helpers.x_min c, nms_helpers.x_max c)
     = (boxes_data (0 + 3), boxes_data (0 + 1))) /\
  ((nms_helpers.y_min c, nms_helpers.y_max c)
     = (boxes_data (0 + 0), boxes_data (0 + 2)) \/
   (nms_helpers.y_min c, nms_helpers.y_max c)
     = (boxes_data (0 + 2), boxes_data (0 + 0))).
Proof.
  intros boxes_data c.
  assert (Hnan : forall i, 0 <= i < 4 -> boxes_data (0 + i) <> S754_nan).
  { intros i Hi.
    assert (Hcases : i = 0 \/ i = 1 \/ i = 2 \/ i = 3) by lia.
    destruct Hcases as [-> | [-> | [-> | ->]]]; vm_compute; discriminate. }
  split.
  - exact Hnan.
  - apply (corner_mode_orders_the_corners boxes_data 0). exact Hnan.
Defined.

(** X10: lowering the IoU threshold never lifts a suppression: if
    SuppressByIOU returns true for a threshold, it returns true for every
    threshold that is [<=] it, on the same boxes and mode. *)
Theorem lower_threshold_keeps_suppression
    (boxes_data : Z -> F32.float) (box_index1 box_index2 center_point_box : Z)
    (iou_threshold lower : F32.float) :
  F32.leb lower iou_threshold = true ->
  nms_helpers.SuppressByIOU boxes_data box_index1 box_index2 center_point_box
                            iou_threshold = true ->
  nms_helpers.SuppressByIOU boxes_data box_index1 box_index2 center_point_box
                            lower = true.
Proof.
  intros Hle. unfold nms_helpers.SuppressByIOU. cbv zeta.
  destruct (nms_helpers.leb _ _); [discriminate|].
  destruct (_ || _ || _); [discriminate|].
  cbn [nms_helpers.gtb nms_helpers.float_Scalar].
  apply leb_ltb_trans. exact Hle.
Qed.

Lemma lower_threshold_keeps_suppression_witness :
  let boxes_data := nms_helpers.memory_of [0; 0; 2; 2; 0; 0; 2; 3] in
  let iou_threshold := F32.div (F32.of_Z 1) (F32.of_Z 2) in
  let lower := F32.of_Z 0 in
  (F32.leb lower iou_threshold = true /\
   nms_helpers.SuppressByIOU boxes_data 0 1 0 iou_threshold = true) /\
  nms_helpers.SuppressByIOU boxes_data 0 1 0 lower = true.
Proof.
  intros boxes_data iou_threshold lower. split.
  - split; vm_compute; reflexivity.
  - apply (lower_threshold_keeps_suppression boxes_data 0 1 0 iou_threshold
             lower); vm_compute; reflexivity.
Defined.

(** X11: SuppressByIOU depends on nothing but the four values of each
    of the two boxes: two memories that agree at offsets 4*box_index1 ..
    4*box_index1+3 and 4*box_index2 .. 4*box_index2+3 give the same answer,
    for every element type. *)
Theorem SuppressByIOU_reads_two_boxes {T : Type} `{nms_helpers.Scalar T}
    (memory1 memory2 : Z -> T) (box_index1 box_index2 center_point_box : Z)
    (iou_threshold : T) :
  (forall i, 0 <= i < 4 ->
             memory1 (4 * box_index1 + i) = memory2 (4 * box_index1 + i)) ->
  (forall i, 0 <= i < 4 ->
             memory1 (4 * box_index2 + i) = memory2 (4 * box_index2 + i)) ->
  nms_helpers.SuppressByIOU memory1 box_index1 box_index2 center_point_box
                            iou_threshold =
  nms_helpers.SuppressByIOU memory2 box_index1 box_index2 center_point_box
                            iou_threshold.
Proof.
  intros H1 H2.
  assert (Hc : forall box,
             (forall i, 0 <= i < 4 -> memory1 (box + i) = memory2 (box + i)) ->
             nms_helpers.corners memory1 box center_point_box =
             nms_helpers.corners memory2 box center_point_box).
  { intros box Hbox. unfold nms_helpers.corners.
    rewrite (Hbox 0), (Hbox 1), (Hbox 2), (Hbox 3) by lia. reflexivity. }
  unfold nms_helpers.SuppressByIOU.
  rewrite (Hc _ H1), (Hc _ H2). reflexivity.
Qed.

Lemma SuppressByIOU_reads_two_boxes_witness :
  let memory1 := nms_helpers.memory_of [0; 0; 2; 2; 0; 0; 2; 3] in
  let memory2 := nms_helpers.memory_of [0; 0; 2; 2; 0; 0; 2; 3; 9; 9; 9; 9] in
  let iou_threshold := F32.div (F32.of_Z 1) (F32.of_Z 2) in
  ((forall i, 0 <= i < 4 -> memory1 (4 * 0 + i) = memory2 (4 * 0 + i)) /\
   (forall i, 0 <= i < 4 -> memory1 (4 * 1 + i) = memory2 (4 * 1 + i))) /\
  nms_helpers.SuppressByIOU memory1 0 1 0 iou_threshold =
  nms_helpers.SuppressByIOU memory2 0 1 0 iou_threshold.
Proof.
  intros memory1 memory2 iou_threshold.
  assert (H1 : forall i, 0 <= i < 4 ->
                         memory1 (4 * 0 + i) = memory2 (4 * 0 + i)).
  { intros i Hi.
    assert (Hcases : i = 0 \/ i = 1 \/ i = 2 \/ i = 3) by lia.
    destruct Hcases as [-> | [-> | [-> | ->]]]; reflexivity. }
  assert (H2 : forall i, 0 <= i < 4 ->
                         memory1 (4 * 1 + i) = memory2 (4 * 1 + i)).
  { intros i Hi.
    assert (Hcases : i = 0 \/ i = 1 \/ i = 2 \/ i = 3) by lia.
    destruct Hcases as [-> | [-> | [-> | ->]]]; reflexivity. }
  split.
  - split; assumption.
  - apply (SuppressByIOU_reads_two_boxes memory1 memory2 0 1 0 iou_threshold);
      assumption.
Defined.


Lemma mul_nan (x y : F32.float) :
  x = S754_nan \/ y = S754_nan -> F32.mul x y = S754_nan.
Proof. intros [-> | ->]; [|destruct x]; reflexivity. Qed.

Lemma leb_nan_r (x : F32.float) : F32.leb x S754_nan = false.
Proof. destruct x; reflexivity. Qed.

Lemma MaxMin_nan (lhs rhs : F32.float) :
  lhs = S754_nan \/ rhs = S754_nan ->
  fst (nms_helpers.MaxMin lhs rhs) = S754_nan \/
  snd (nms_helpers.MaxMin lhs rhs) = S754_nan.
Proof.
  unfold nms_helpers.MaxMin. cbn [nms_helpers.geb nms_helpers.float_Scalar].
  intros [-> | ->].
  - rewrite leb_nan_r. left. reflexivity.
  - change (F32.leb S754_nan lhs) with false. right. reflexivity.
Qed.

Lemma area_nan (boxes_data : Z -> F32.float) (box center_point_box : Z) :
  (exists i, 0 <= i < 4 /\ boxes_data (box + i) = S754_nan) ->
  nms_helpers.area (nms_helpers.corners boxes_data box center_point_box)
  = S754_nan.
Proof.
  intros (i & Hi & Hnan).
  assert (Hcases : i = 0 \/ i = 1 \/ i = 2 \/ i = 3) by lia.
  unfold nms_helpers.area, nms_helpers.corners.
  cbn [nms_helpers.mul nms_helpers.sub nms_helpers.add nms_helpers.div
       nms_helpers.float_Scalar].
  destruct (0 =? center_point_box).
  - pose proof (MaxMin_nan (boxes_data (box + 1)) (boxes_data (box + 3))) as Hx.
    pose proof (MaxMin_nan (boxes_data (box + 0)) (boxes_data (box + 2))) as Hy.
    destruct (nms_helpers.MaxMin (boxes_data (box + 1)) (boxes_data (box + 3)))
      as [xmin xmax].
    destruct (nms_helpers.MaxMin (boxes_data (box + 0)) (boxes_data (box + 2)))
      as [ymin ymax].
    cbn [fst snd nms_helpers.x_min nms_helpers.x_max nms_helpers.y_min
         nms_helpers.y_max] in *.
    apply mul_nan.
    destruct Hcases as [-> | [-> | [-> | ->]]].
    + right. apply nms_facts.sub_nan. destruct Hy as [Hy|Hy]; auto.
    + left. apply nms_facts.sub_nan. destruct Hx as [Hx|Hx]; auto.
    + right. apply nms_facts.sub_nan. destruct Hy as [Hy|Hy]; auto.
    + left. apply nms_facts.sub_nan. destruct Hx as [Hx|Hx]; auto.
  - cbn [nms_helpers.x_min nms_helpers.x_max nms_helpers.y_min
         nms_helpers.y_max].
    apply mul_nan.
    destruct Hcases as [-> | [-> | [-> | ->]]]; rewrite Hnan.
    + left. apply nms_facts.sub_nan. left. apply nms_facts.add_nan. auto.
    + right. apply nms_facts.sub_nan. left. apply nms_facts.add_nan. auto.
    + left. apply nms_facts.sub_nan. left. apply nms_facts.add_nan. right.
      apply nms_facts.div_nan. auto.
    + right. apply nms_facts.sub_nan. left. apply nms_facts.add_nan. right.
      apply nms_facts.div_nan. auto.
Qed.

(** X14: a box with a NaN among its four coordinates is never
    suppressed and never suppresses, in either box format and for every
    threshold: SuppressByIOU (on [float]) returns false as soon as one of
    the eight values it reads is NaN. *)
Theorem NaN_box_is_never_suppressed
    (boxes_data : Z -> F32.float) (box_index1 box_index2 center_point_box : Z)
    (iou_threshold : F32.float) :
  (exists i, 0 <= i < 4 /\
             (boxes_data (4 * box_index1 + i) = S754_nan \/
              boxes_data (4 * box_index2 + i) = S754_nan)) ->
  nms_helpers.SuppressByIOU boxes_data box_index1 box_index2 center_point_box
                            iou_threshold = false.
Proof.
  intros (i & Hi & Hnan).
  unfold nms_helpers.SuppressByIOU. cbv zeta.
  set (c1 := nms_helpers.corners boxes_data (4 * box_index1) center_point_box).
  set (c2 := nms_helpers.corners boxes_data (4 * box_index2) center_point_box).
  destruct (nms_helpers.leb _ _); [reflexivity|].
  destruct (_ || _ || _); [reflexivity|].
  cbn [nms_helpers.gtb nms_helpers.float_Scalar].
  assert (Hu : nms_helpers.union_area c1 c2 = S754_nan).
  { unfold nms_helpers.union_area.
    cbn [nms_helpers.sub nms_helpers.add nms_helpers.float_Scalar].
    apply nms_facts.sub_nan. left. apply nms_facts.add_nan.
    destruct Hnan as [Hn|Hn]; [left|right];
      apply area_nan; exists i; split; assumption. }
  unfold nms_helpers.intersection_over_union.
  cbn [nms_helpers.div nms_helpers.float_Scalar].
  rewrite (nms_facts.div_nan _ _ (or_intror Hu)).
  apply nms_facts.ltb_nan_r.
Qed.

Lemma NaN_box_is_never_suppressed_witness :
  let boxes_data := fun i : Z => if i =? 6 then S754_nan else F32.of_Z i in
  let iou_threshold := F32.of_Z 0 in
  (exists i, 0 <= i < 4 /\
             (boxes_data (4 * 0 + i) = S754_nan \/
              boxes_data (4 * 1 + i) = S754_nan)) /\
  nms_helpers.SuppressByIOU boxes_data 0 1 1 iou_threshold = false.
Proof.
  intros boxes_data iou_threshold.
  assert (Hnan : exists i, 0 <= i < 4 /\
                           (boxes_data (4 * 0 + i) = S754_nan \/
                            boxes_data (4 * 1 + i) = S754_nan)).
  { exists 2. split; [lia|]. right. reflexivity. }
  split.
  - exact Hnan.
  - apply (NaN_box_is_never_suppressed boxes_data 0 1 1 iou_threshold).
    exact Hnan.
Defined.


(** ** The Range kernel *)

Lemma fill_length {T : Type} `{range.Element T} (n : nat) (start delta : T) :
  List.length (range.fill n start delta) = n.
Proof.
  revert start. induction n as [|n IH]; intros start; cbn; [reflexivity|].
  rewrite IH. reflexivity.
Qed.

Lemma fill_nth {T : Type} `{range.Element T} (n i : nat) (start delta d : T) :
  (i < n)%nat ->
  nth i (range.fill n start delta) d =
  Nat.iter i (fun x => range.plus x delta) start.
Proof.
  revert start i. induction n as [|n IH]; intros start i Hi; [lia|].
  destruct i as [|i]; [reflexivity|].
  cbn [range.fill nth]. rewrite IH by lia.
  rewrite Nat.iter_succ_r. reflexivity.
Qed.

(** X12: when Impl of the Range kernel succeeds, its output is
    one-dimensional of length n = max(count, 0), never negative, and holds
    start, start + delta, start + delta + delta, ...: element i is start
    with delta added i times in the element type (delta is 1 when no delta
    is given). *)
Theorem Impl_writes_a_progression {T : Type} `{range.Element T}
    (start limit : T) (p_delta : option T)
    (shape : TensorShape) (data : list T) :
  range.Impl start limit p_delta = Some (OK, Some (shape, data)) ->
  let delta := match p_delta with None => range.one | Some d => d end in
  exists n,
    shape = [n] /\ 0 <= n /\
    List.length data = Z.to_nat n /\
    (forall c, range.count start limit delta = Some c -> n = Z.max c 0) /\
    forall i, (i < List.length data)%nat ->
              nth i data range.zero =
              Nat.iter i (fun x => range.plus x delta) start.
Proof.
  unfold range.Impl. cbv zeta.
  set (delta := match p_delta with None => range.one | Some d => d end).
  destruct (range.equal delta range.zero); [discriminate|].
  destruct (range.count start limit delta) as [c|]; [|discriminate].
  intros Hres. injection Hres as <- <-.
  exists (if c <=? 0 then 0 else c).
  split; [reflexivity|].
  split; [destruct (Z.leb_spec c 0); lia|].
  split; [apply fill_length|].
  split.
  - intros c' Hc'. injection Hc' as <-. destruct (Z.leb_spec c 0); lia.
  - intros i Hi. rewrite fill_length in Hi. apply fill_nth. exact Hi.
Qed.

Lemma Impl_writes_a_progression_witness :
  let start := F64.of_Z 0 in
  let limit := F64.of_Z 5 in
  let p_delta := Some (F64.of_Z 2) in
  let shape := [3] in
  let data := [F64.of_Z 0; F64.of_Z 2; F64.of_Z 4] in
  range.Impl start limit p_delta = Some (OK, Some (shape, data)) /\
  let delta := match p_delta with None => range.one | Some d => d end in
  exists n,
    shape = [n] /\ 0 <= n /\
    List.length data = Z.to_nat n /\
    (forall c, range.count start limit delta = Some c -> n = Z.max c 0) /\
    forall i, (i < List.length data)%nat ->
              nth i data range.zero =
              Nat.iter i (fun x => range.plus x delta) start.
Proof.
  intros start limit p_delta shape data. split.
  - vm_compute. reflexivity.
  - apply (Impl_writes_a_progression start limit p_delta shape data).
    vm_compute. reflexivity.
Defined.

(** X13: ComputeRange fails, with INVALID_ARGUMENT and without
    requesting an output tensor, exactly when start, limit or a given delta
    is not a scalar tensor or delta (1 when absent) equals zero; in every
    other defined case it succeeds with one output of shape [n], n >= 0,
    filled from the first element of start. *)
Theorem ComputeRange_rejects_without_output {T : Type} `{range.Element T}
    (IsScalar : TensorShape -> bool)
    (start_tensor limit_tensor : range.Tensor T)
    (delta_tensor_ptr : option (range.Tensor T))
    (status : Status) (output : option (TensorShape * list T)) :
  range.ComputeRange IsScalar start_tensor limit_tensor delta_tensor_ptr
    = Some (status, output) ->
  let delta := match delta_tensor_ptr with
               | Some delta_tensor => range.Data delta_tensor 0
               | None => range.one
               end in
  let rejected :=
    negb (IsScalar (range.Shape start_tensor))
    || negb (IsScalar (range.Shape limit_tensor))
    || match delta_tensor_ptr with
       | Some delta_tensor => negb (IsScalar (range.Shape delta_tensor))
       | None => false
       end
    || range.equal delta range.zero in
  if rejected
  then status = Error InvalidArgument /\ output = None
  else status = OK /\
       exists n, 0 <= n /\
                 output = Some ([n], range.fill (Z.to_nat n)
                                       (range.Data start_tensor 0) delta).
Proof.
  unfold range.ComputeRange. cbv zeta.
  destruct (IsScalar (range.Shape start_tensor)); cbn [negb orb].
  2: { intros Hres. injection Hres as <- <-. split; reflexivity. }
  destruct (IsScalar (range.Shape limit_tensor)); cbn [negb orb].
  2: { intros Hres. injection Hres as <- <-. split; reflexivity. }
  destruct delta_tensor_ptr as [delta_tensor|].
  - destruct (IsScalar (range.Shape delta_tensor)); cbn [negb orb].
    2: { intros Hres. injection Hres as <- <-. split; reflexivity. }
    unfold range.Impl.
    destruct (range.equal (range.Data delta_tensor 0) range.zero).
    { intros Hres. injection Hres as <- <-. split; reflexivity. }
    destruct (range.count _ _ _) as [c|]; [|discriminate].
    intros Hres. injection Hres as <- <-. split; [reflexivity|].
    exists (if c <=? 0 then 0 else c).
    split; [destruct (Z.leb_spec c 0); lia|reflexivity].
  - cbn [orb]. unfold range.Impl.
    destruct (range.equal range.one range.zero).
    { intros Hres. injection Hres as <- <-. split; reflexivity. }
    destruct (range.count _ _ _) as [c|]; [|discriminate].
    intros Hres. injection Hres as <- <-. split; [reflexivity|].
    exists (if c <=? 0 then 0 else c).
    split; [destruct (Z.leb_spec c 0); lia|reflexivity].
Qed.

Lemma ComputeRange_rejects_without_output_witness :
  let start_tensor := range.scalar 0 in
  let limit_tensor := range.scalar 5 in
  let delta_tensor_ptr := Some (range.scalar 0) in
  let status := Error InvalidArgument in
  let output := @None (TensorShape * list F64.float) in
  range.ComputeRange range.is_scalar start_tensor limit_tensor
                     delta_tensor_ptr = Some (status, output) /\
  let delta := match delta_tensor_ptr with
               | Some delta_tensor => range.Data delta_tensor 0
               | None => range.one
               end in
  let rejected :=
    negb (range.is_scalar (range.Shape start_tensor))
    || negb (range.is_scalar (range.Shape limit_tensor))
    || match delta_tensor_ptr with
       | Some delta_tensor => negb (range.is_scalar (range.Shape delta_tensor))
       | None => false
       end
    || range.equal delta range.zero in
  if rejected
  then status = Error InvalidArgument /\ output = None
  else status = OK /\
       exists n, 0 <= n /\
                 output = Some ([n], range.fill (Z.to_nat n)
                                       (range.Data start_tensor 0) delta).
Proof.
  intros start_tensor limit_tensor delta_tensor_ptr status output. split.
  - vm_compute. reflexivity.
  - apply (ComputeRange_rejects_without_output range.is_scalar start_tensor
             limit_tensor delta_tensor_ptr status output).
    vm_compute. reflexivity.
Defined.

Lemma sub_self (x : spec_float) :
  (forall s, x <> S754_infinity s) -> x <> S754_nan ->
  SFsub 53 1024 x x = S754_zero false.
Proof.
  intros Hinf Hnan. destruct x as [s|s| |s m e].
  - destruct s; reflexivity.
  - exfalso. apply (Hinf s). reflexivity.
  - contradiction.
  - cbn [SFsub]. rewrite Z.min_id. rewrite Z.sub_diag. reflexivity.
Qed.

(** X15: at [double], a range whose limit equals its start is empty,
    not an error: for a start that is a number and a delta that is neither
    NaN nor zero, Impl returns OK with an output of shape [0] and no
    element. *)
Theorem empty_range (start delta : F64.float) :
  (forall s, F64.to_spec start <> S754_infinity s) ->
  F64.to_spec start <> S754_nan ->
  F64.to_spec delta <> S754_nan ->
  F64.eqb delta (F64.of_Z 0) = false ->
  range.Impl start start (Some delta) = Some (OK, Some ([0], [])).
Proof.
  intros Hinf Hnan Hdnan Hdz. unfold range.Impl.
  cbn [range.equal range.zero range.double_Element]. rewrite Hdz.
  unfold range.count.
  cbn [range.minus range.to_double range.double_Element].
  unfold F64.sub, F64.lift2. rewrite sub_self by assumption.
  destruct delta as [d]. cbn [F64.to_spec] in *.
  destruct d as [s|s| |s m e].
  - destruct s; discriminate Hdz.
  - destruct s; reflexivity.
  - contradiction.
  - destruct s; reflexivity.
Qed.

Lemma empty_range_witness :
  let start := F64.of_Z 5 in
  let delta := F64.of_Z (-3) in
  ((forall s, F64.to_spec start <> S754_infinity s) /\
   F64.to_spec start <> S754_nan /\
   F64.to_spec delta <> S754_nan /\
   F64.eqb delta (F64.of_Z 0) = false) /\
  range.Impl start start (Some delta) = Some (OK, Some ([0], [])).
Proof.
  intros start delta.
  assert (Hinf : forall s, F64.to_spec start <> S754_infinity s)
    by (intros s; vm_compute; discriminate).
  assert (Hnan : F64.to_spec start <> S754_nan) by (vm_compute; discriminate).
  assert (Hdnan : F64.to_spec delta <> S754_nan) by (vm_compute; discriminate).
  assert (Hdz : F64.eqb delta (F64.of_Z 0) = false) by reflexivity.
  split.
  - repeat split; assumption.
  - apply (empty_range start delta); assumption.
Defined.
